(** * trading-agent: a shallow embedding of the orchestrator, the data
    modules and the order-reconciliation loop.

    The three Python files are embedded module by module:
    - [Py]          values and exceptions shared by all processes;
    - [DataModule]  dataModule.py (publisher, display consumer);
    - [Trading]     tradingModule.py (execute_trade and the trader loop);
    - [Orchestrator] main.py (port allocation and process registration).

    Python floats are binary64 numbers ([PrimFloat.float]); Python ints are
    [Z]; a dict decoded from JSON is a [gmap string _]; a local variable
    that may be read before it is assigned is an [option] (None = unbound). *)

From Stdlib Require Import ZArith Bool List Sorted Lia PrimFloat Uint63 FloatOps SpecFloat.
From stdpp Require Import gmap strings list.

Local Open Scope string_scope.
Local Open Scope Z_scope.
Local Open Scope list_scope.

(* Decimal literals denote the nearest binary64 number, as in Python. *)
#[local] Set Warnings "-inexact-float".

(* ===================================================================== *)
(** * Python values and exceptions *)
(* ===================================================================== *)

Module Py.

(** The exceptions the three modules can see.  All of them are subclasses
    of Python's [Exception], so every [except Exception] clause catches
    every constructor. *)
Inductive PyExn : Type :=
| KeyError (key : string)
| ValueError (msg : string)
| TypeError
| AttributeError (attr : string)
| UnboundLocalError (var : string)
| Exception_ (msg : string).

(** The outcome of evaluating an expression or calling a function. *)
Inductive Result (A : Type) : Type :=
| Value (a : A)
| Raised (e : PyExn).
Arguments Value {A} a.
Arguments Raised {A} e.

Definition rbind {A A'} (r : Result A) (k : A -> Result A') : Result A' :=
  match r with
  | Value a => k a
  | Raised e => Raised e
  end.

Declare Scope result_scope.
Delimit Scope result_scope with result.
Notation "'let?' x ':=' r 'in' k" := (rbind r (fun x => k))
  (at level 10, x pattern, r at level 100, k at level 200) : result_scope.

(** A JSON scalar as [recv_json] decodes it: numbers are floats, as the
    publisher sends them. *)
Inductive JVal : Type :=
| JNum (f : float)
| JStr (s : string)
| JNull.

(** One tick envelope: a JSON object. *)
Abbreviation Entry := (gmap string JVal).
(** The aggregated envelope: symbol -> tick. *)
Abbreviation Snapshot := (gmap string (gmap string JVal)).

(** [d[k]] on a dict. *)
Definition getitem {V : Type} (d : gmap string V) (k : string) : Result V :=
  match d !! k with
  | Some v => Value v
  | None => Raised (KeyError k)
  end.

(** [float(i)] for a Python int, exact for [0 <= i < 2^53]. *)
Definition float_of_int (i : Z) : float := PrimFloat.of_uint63 (Uint63.of_Z i).

(** [i / d] on two Python ints (true division).  For [0 <= i, d < 2^53]
    it is the correctly rounded quotient of the two exact conversions. *)
Definition truediv_int (i d : Z) : float :=
  (float_of_int i / float_of_int d)%float.

(** [v - c] and [v + c] where [c] is a float literal. *)
Definition sub_float (v : JVal) (c : float) : Result float :=
  match v with
  | JNum f => Value (f - c)%float
  | JStr _ | JNull => Raised TypeError
  end.

Definition add_float (v : JVal) (c : float) : Result float :=
  match v with
  | JNum f => Value (f + c)%float
  | JStr _ | JNull => Raised TypeError
  end.

(** [c - v] where [c] is a float. *)
Definition float_sub (c : float) (v : JVal) : Result float :=
  match v with
  | JNum f => Value (c - f)%float
  | JStr _ | JNull => Raised TypeError
  end.

(** [v != s] where [s] is a str: only a str can equal a str. *)
Definition ne_str (v : JVal) (s : string) : bool :=
  match v with
  | JStr s' => negb (String.eqb s' s)
  | JNum _ | JNull => true
  end.

(** [a == b] on values that are [None] or a float: IEEE equality on two
    floats (so NaN differs from itself), [None] equals only [None]. *)
Definition eq_opt_float (a b : option float) : bool :=
  match a, b with
  | None, None => true
  | Some x, Some y => PrimFloat.eqb x y
  | _, _ => false
  end.

(** [a == b] where [a] is an int and [b] is [None] or an int. *)
Definition eq_int_opt (a : Z) (b : option Z) : bool :=
  match b with
  | None => false
  | Some y => Z.eqb a y
  end.

(** [needle in hay] on two strs. *)
Fixpoint str_in (needle hay : string) : bool :=
  String.prefix needle hay ||
  match hay with
  | EmptyString => false
  | String _ rest => str_in needle rest
  end.

(** Round-half-even of the rational [num / den] ([den > 0]) to an integer. *)
Definition round_half_even (num den : Z) : Z :=
  let q := num / den in
  let r := num mod den in
  if 2 * r <? den then q
  else if den <? 2 * r then q + 1
  else if Z.even q then q else q + 1.

(** A reference implementation of the built-in [round(x, 2)] on a float:
    the exact binary value is rounded half-even to a multiple of 1/100, and
    the nearest float to that decimal is returned.  From [2^46] on, floats
    are more than 0.01 apart and [round] is the identity. *)
Definition py_round2 (x : float) : float :=
  match Prim2SF x with
  | S754_finite s m e =>
      if -6 <=? e then x
      else
        let n := round_half_even (Z.pos m * 100) (2 ^ (- e)) in
        let y := (float_of_int n / 100)%float in
        if s then (- y)%float else y
  | _ => x
  end.

End Py.

(* ===================================================================== *)
(** * dataModule.py *)
(* ===================================================================== *)

Module DataModule.
Import Py.

(** ** realtime_price_publisher *)

(** Lines 25-31; [now] is the value of [time.time()]. *)
Definition get_realtime_price (ticker : string) (now : float) (i : Z) : Entry :=
  let price := (100.0 + truediv_int i 10)%float in
  <["symbol" := JStr ticker]>
    (<["price" := JNum price]> (<["time" := JNum now]> ∅)).

Inductive PubEvent : Type :=
| PubSleep
| SendJson (m : Entry).

(** Lines 36-40: the loop, run for as many iterations as there are clock
    readings; [i] is the counter on entry to the iteration. *)
Fixpoint publisher_loop (ticker : string) (clock : list float) (i : Z)
  : list PubEvent :=
  match clock with
  | [] => []
  | now :: later =>
      let i := i + 1 in
      let latest_price := get_realtime_price ticker now i in
      PubSleep :: SendJson latest_price :: publisher_loop ticker later i
  end.

(** Lines 33-40: [i = 0], then the loop. *)
Definition realtime_price_publisher (ticker : string) (port : Z)
    (clock : list float) : list PubEvent :=
  publisher_loop ticker clock 0.

(** The messages broadcast, oldest first. *)
Fixpoint broadcast (tr : list PubEvent) : list Entry :=
  match tr with
  | [] => []
  | SendJson m :: tr' => m :: broadcast tr'
  | PubSleep :: tr' => broadcast tr'
  end.

(** The price field of a tick envelope. *)
Definition price_of (m : Entry) : option float :=
  match m !! "price" with
  | Some (JNum p) => Some p
  | _ => None
  end.

(** ** realtime_price_display_consumer *)

Inductive DisplayEvent : Type :=
| DisplaySleep
| PrintPrice (ticker : string) (price time : JVal)
| PrintBlank.

(** The truth value of a dict: it is not empty. *)
Definition truthy (d : Entry) : bool := negb (Nat.eqb (size d) 0).

(** Lines 121-124: the loop over the tracked tickers.  The lines printed
    so far stay printed when a later ticker raises. *)
Fixpoint print_each (tickers : list string) (prices : Snapshot)
  : list DisplayEvent * Result unit :=
  match tickers with
  | [] => ([], Value tt)
  | ticker :: rest =>
      match prices !! ticker with
      | Some price_data =>
          if truthy price_data then
            match getitem price_data "price" with
            | Raised e => ([], Raised e)
            | Value price =>
                match getitem price_data "time" with
                | Raised e => ([], Raised e)
                | Value time =>
                    let '(out, r) := print_each rest prices in
                    (PrintPrice ticker price time :: out, r)
                end
            end
          else print_each rest prices
      | None => print_each rest prices
      end
  end.

(** Lines 118-125. *)
Definition print_realtime_price (tickers : list string) (prices : Snapshot)
  : list DisplayEvent * Result unit :=
  match print_each tickers prices with
  | (out, Value _) => (DisplaySleep :: out ++ [PrintBlank], Value tt)
  | (out, Raised e) => (DisplaySleep :: out, Raised e)
  end.

(** Lines 127-139: the consumer's loop on the snapshots its socket
    delivers, inside [try / except / finally]. *)
Inductive ProcStatus : Type :=
| Running
| Stopped (e : PyExn).

Inductive ConsumerEvent : Type :=
| Shown (ev : DisplayEvent)
| ConsumerError (e : PyExn)
| ConsumerSocketClose
| ConsumerContextTerm
| ConsumerClosed.

Fixpoint display_loop (tickers : list string) (received : list Snapshot)
  : ProcStatus * list ConsumerEvent :=
  match received with
  | [] => (Running, [])
  | latest_prices :: later =>
      match print_realtime_price tickers latest_prices with
      | (out, Value _) =>
          let '(s, tr) := display_loop tickers later in
          (s, map Shown out ++ tr)
      | (out, Raised e) => (Stopped e, map Shown out)
      end
  end.

Definition realtime_price_display_consumer (tickers : list string) (port : Z)
    (received : list Snapshot) : ProcStatus * list ConsumerEvent :=
  match display_loop tickers received with
  | (Running, tr) => (Running, tr)
  | (Stopped e, tr) =>
      (Stopped e,
       tr ++ [ConsumerError e; ConsumerSocketClose; ConsumerContextTerm;
              ConsumerClosed])
  end.

(** ** realtime_prices_manager *)

(** A Python dict whose keys are decoded JSON scalars, in insertion order. *)
Abbreviation PyDict := (list (JVal * gmap string JVal)).

(** Whether two decoded JSON scalars are the same dict key: equal strs,
    equal floats (0.0 and -0.0 are one key), or both the NaN or the [None]
    object of the decoder. *)
Definition key_eqb (a b : JVal) : bool :=
  match a, b with
  | JStr s, JStr s' => String.eqb s s'
  | JNum x, JNum y =>
      PrimFloat.eqb x y || (PrimFloat.is_nan x && PrimFloat.is_nan y)
  | JNull, JNull => true
  | _, _ => false
  end.

(** [d[k] = v]: the value of an existing key is replaced in place, a new
    key is appended. *)
Fixpoint dict_set (d : PyDict) (k : JVal) (v : Entry) : PyDict :=
  match d with
  | [] => [(k, v)]
  | (k', v') :: d' =>
      if key_eqb k' k then (k', v) :: d' else (k', v') :: dict_set d' k v
  end.

(** Lines 80-82: the loop over the consuming sockets, on the messages they
    deliver in this round, one per socket; [None] when a socket has nothing
    to deliver and [recv_json] blocks. *)
Fixpoint aggregate (consume_sockets : list Z) (received : list Entry)
    (aggregated_prices : PyDict) : option (Result PyDict) :=
  match consume_sockets with
  | [] => Some (Value aggregated_prices)
  | socket :: sockets =>
      match received with
      | [] => None
      | latest_price :: rest =>
          match getitem latest_price "symbol" with
          | Raised e => Some (Raised e)
          | Value symbol =>
              aggregate sockets rest (dict_set aggregated_prices symbol latest_price)
          end
      end
  end.

(** Lines 78-83. *)
Definition get_aggregated_prices (consume_sockets : list Z)
    (received : list Entry) : option (Result PyDict) :=
  aggregate consume_sockets received [].

Inductive ManagerEvent : Type :=
| ManagerSend (latest_prices : PyDict)
| ManagerSleep
| ManagerError (e : PyExn)
| ManagerCloseConsumer (port : Z)
| ManagerClosePublisher
| ManagerContextTerm
| ManagerClosed.

(** Lines 87-90: the loop, on the messages of each round. *)
Fixpoint manager_loop (consume_sockets : list Z) (rounds : list (list Entry))
  : ProcStatus * list ManagerEvent :=
  match rounds with
  | [] => (Running, [])
  | received :: later =>
      match get_aggregated_prices consume_sockets received with
      | None => (Running, [])
      | Some (Raised e) => (Stopped e, [])
      | Some (Value latest_prices) =>
          let '(s, tr) := manager_loop consume_sockets later in
          (s, ManagerSend latest_prices :: ManagerSleep :: tr)
      end
  end.

(** Lines 63-100: one consuming socket per port, the loop, and the
    [except] and [finally] clauses. *)
Definition realtime_prices_manager (tickers : list string)
    (consume_ports : list Z) (port : Z) (rounds : list (list Entry))
  : ProcStatus * list ManagerEvent :=
  match manager_loop consume_ports rounds with
  | (Running, tr) => (Running, tr)
  | (Stopped e, tr) =>
      (Stopped e,
       tr ++ [ManagerError e] ++ map ManagerCloseConsumer consume_ports
          ++ [ManagerClosePublisher; ManagerContextTerm; ManagerClosed])
  end.

(** What [recv_json] decodes from what [send_json] wrote for a dict whose
    keys are all strs: the same mapping.  (JSON writes other keys as text;
    that conversion is not modelled.) *)
Fixpoint as_received (d : PyDict) : option Snapshot :=
  match d with
  | [] => Some ∅
  | (JStr s, e) :: d' =>
      match as_received d' with
      | Some m => Some (<[s := e]> m)
      | None => None
      end
  | _ :: _ => None
  end.

(** The symbol of a message, when it is a str. *)
Definition symbol_of (m : Entry) : option string :=
  match m !! "symbol" with
  | Some (JStr s) => Some s
  | _ => None
  end.

Definition symbol_is (ticker : string) (m : Entry) : bool :=
  match symbol_of m with
  | Some s => String.eqb s ticker
  | None => false
  end.

(** The last message of a round that carries [ticker]. *)
Definition latest_for (ticker : string) (received : list Entry) : option Entry :=
  last (List.filter (symbol_is ticker) received).

(** The line the display prints for an entry that has both fields. *)
Definition line_of (ticker : string) (e : Entry) : option DisplayEvent :=
  match e !! "price", e !! "time" with
  | Some price, Some time => Some (PrintPrice ticker price time)
  | _, _ => None
  end.

End DataModule.

(* ===================================================================== *)
(** * tradingModule.py *)
(* ===================================================================== *)

Module Trading.
Import Py.

(** ** The broker's data, as the client library hands it over *)

Inductive OrderSide : Type := BUY | SELL.
Inductive TimeInForce : Type := DAY | GTC | OPG | CLS | IOC | FOK.

Definition OrderSide_eqb (a b : OrderSide) : bool :=
  match a, b with
  | BUY, BUY | SELL, SELL => true
  | _, _ => false
  end.

Definition TimeInForce_eqb (a b : TimeInForce) : bool :=
  match a, b with
  | DAY, DAY | GTC, GTC | OPG, OPG | CLS, CLS | IOC, IOC | FOK, FOK => true
  | _, _ => false
  end.

(** [position.qty] is read as a number. *)
Record Position : Type := mkPosition {
  pos_symbol : string;
  pos_qty : float
}.

Record LimitOrderRequest : Type := mkLimitOrderRequest {
  req_symbol : string;
  req_limit_price : float;
  req_qty : float;
  req_side : OrderSide;
  req_time_in_force : TimeInForce
}.

(** An order mirrored from the broker; [limit_price] and [qty] stand for
    [float(order.limit_price)] and [float(order.qty)]. *)
Record Order : Type := mkOrder {
  order_id : string;
  order_symbol : string;
  order_side : OrderSide;
  order_qty : float;
  order_limit_price : float;
  order_time_in_force : TimeInForce
}.

(** An exception raised by the trading client.  [exn_message] is its
    [message] attribute; [None] when the exception has no such attribute. *)
Record BrokerExn : Type := mkBrokerExn {
  exn_message : option string
}.

(** The four client methods [execute_trade] calls.  The broker is an
    external, stateful service: each call answers or raises, and moves the
    broker to a new state. *)
Class Broker (B : Type) : Type := {
  get_open_position : string -> B -> (BrokerExn + Position) * B;
  get_orders : string -> B -> (BrokerExn + list Order) * B;
  cancel_order_by_id : string -> B -> (BrokerExn + unit) * B;
  submit_order : LimitOrderRequest -> B -> (BrokerExn + Order) * B
}.

(** ** What a trader process does that the outside can observe *)

Inductive Msg : Type :=
| ClientInitialized (ticker : string)
| WarnPositionError (ticker : string) (e : BrokerExn)
| WarnOrdersError (ticker : string) (e : BrokerExn)
| WarnMultipleOrders (ticker : string)
| CancelledBizarre (o : Order)
| WarnCancelBizarre (ticker : string) (e : BrokerExn)
| WarnCancelExisting (ticker : string) (e : BrokerExn)
| OrderAlreadyExists (ticker : string)
| ErrorSubmitting (e : BrokerExn + PyExn)
| WarnStale (ticker : string)
| ErrorExecuting (ticker : string) (e : PyExn)
| OrderUpdated (o : Order)
| ProcessError (e : PyExn)
| SocketAndContextClosed.

Inductive Event : Type :=
| GetOpenPosition (ticker : string)
| GetOrders (ticker : string)
| CancelOrderById (id : string)
| SubmitOrder (req : LimitOrderRequest)
| Printed (m : Msg)
| Sleep
| SocketClose
| ContextTerm.

Definition is_broker_call (ev : Event) : bool :=
  match ev with
  | GetOpenPosition _ | GetOrders _ | CancelOrderById _ | SubmitOrder _ => true
  | _ => false
  end.

(** The ids of the cancel calls of a trace, in call order. *)
Fixpoint cancelled_ids (tr : list Event) : list string :=
  match tr with
  | [] => []
  | CancelOrderById id :: tr' => id :: cancelled_ids tr'
  | _ :: tr' => cancelled_ids tr'
  end.

(** The requests of the submit calls of a trace, in call order. *)
Fixpoint submitted (tr : list Event) : list LimitOrderRequest :=
  match tr with
  | [] => []
  | SubmitOrder r :: tr' => r :: submitted tr'
  | _ :: tr' => submitted tr'
  end.

(** ** Function bodies: state, trace, early return and exceptions *)

(** How a statement of a function body completes: it falls through with a
    value, executes [return r], or raises. *)
Inductive Completion (R A : Type) : Type :=
| Normal (a : A)
| Return (r : R)
| Raise (e : PyExn).
Arguments Normal {R A} a.
Arguments Return {R A} r.
Arguments Raise {R A} e.

(** A statement run against broker state [B]: completion, new broker
    state, and the events emitted, oldest first. *)
Definition Body (B R A : Type) : Type := B -> Completion R A * B * list Event.

Definition ret {B R A} (a : A) : Body B R A := fun b => (Normal a, b, []).
Definition return_ {B R A} (r : R) : Body B R A := fun b => (Return r, b, []).
Definition raise {B R A} (e : PyExn) : Body B R A := fun b => (Raise e, b, []).
Definition emit {B R} (ev : Event) : Body B R unit := fun b => (Normal tt, b, [ev]).
Definition print {B R} (m : Msg) : Body B R unit := emit (Printed m).

Definition bind {B R A A'} (c : Body B R A) (k : A -> Body B R A') : Body B R A' :=
  fun b =>
    match c b with
    | (Normal a, b1, tr1) =>
        let '(r, b2, tr2) := k a b1 in (r, b2, tr1 ++ tr2)
    | (Return r, b1, tr1) => (Return r, b1, tr1)
    | (Raise e, b1, tr1) => (Raise e, b1, tr1)
    end.

Declare Scope body_scope.
Delimit Scope body_scope with body.
Notation "'let*' x ':=' c 'in' k" := (bind c (fun x => k))
  (at level 10, x pattern, c at level 100, k at level 200) : body_scope.
Notation "c ';;' k" := (bind c (fun _ => k))
  (at level 100, k at level 200, right associativity) : body_scope.

(** [try: r = call(...) except Exception as e: ...]: one broker call,
    logged, with its answer or its exception handed to the continuation. *)
Definition call {B R A} (ev : Event) (op : B -> (BrokerExn + A) * B)
  : Body B R (BrokerExn + A) :=
  fun b => let '(r, b') := op b in (Normal r, b', [ev]).

(** Reading a local variable that may not have been assigned. *)
Definition read_local {B R A} (name : string) (v : option A) : Body B R A :=
  match v with
  | Some a => ret a
  | None => raise (UnboundLocalError name)
  end.

(** Calling a function: [return r] and falling off the end with [r] both
    hand [r] to the caller; an exception propagates. *)
Definition run_function {B R} (body : Body B R R) (b : B)
  : Result R * B * list Event :=
  match body b with
  | (Normal r, b', tr) => (Value r, b', tr)
  | (Return r, b', tr) => (Value r, b', tr)
  | (Raise e, b', tr) => (Raised e, b', tr)
  end.

(** ** execute_trade *)

Section Engine.
Context {B : Type} `{Broker B}.
(** The built-in [round(x, 2)]. *)
Variable round2 : float -> float.

Local Open Scope body_scope.

(** Lines 51-58: the position query and its [except] clause. *)
Definition fetch_position (ticker : string)
  : Body B (option Order) (option Position) :=
  let* r := call (GetOpenPosition ticker) (get_open_position ticker) in
  match r with
  | inr position => ret (Some position)
  | inl e =>
      match exn_message e with
      | None => raise (AttributeError "message")
      | Some m =>
          if str_in "position does not exist" m then ret None
          else print (WarnPositionError ticker e) ;; return_ None
      end
  end.

(** Lines 59-76: [order_req] is assigned in the [if] and in the [elif]
    branch and nowhere else; [None] is the unbound variable. *)
Definition make_order_req (ticker : string) (position : option Position)
    (buy_price sell_price : option float) (buy_quantity : Z)
  : option LimitOrderRequest :=
  match position, buy_price with
  | None, Some bp =>
      Some (mkLimitOrderRequest ticker bp (float_of_int buy_quantity) BUY DAY)
  | _, _ =>
      match position, sell_price with
      | Some p, Some sp =>
          Some (mkLimitOrderRequest ticker sp (pos_qty p) SELL DAY)
      | _, _ => None
      end
  end.

(** Lines 83-87: the open-orders query. *)
Definition fetch_orders (ticker : string)
  : Body B (option Order) (list Order) :=
  let* r := call (GetOrders ticker) (get_orders ticker) in
  match r with
  | inr orders => ret orders
  | inl e => print (WarnOrdersError ticker e) ;; return_ None
  end.

(** Lines 91-97: the loop over the orders of the anomalous state. *)
Fixpoint cancel_bizarre (ticker : string) (orders : list Order)
  : Body B (option Order) unit :=
  match orders with
  | [] => ret tt
  | order :: rest =>
      let* r := call (CancelOrderById (order_id order))
                     (cancel_order_by_id (order_id order)) in
      match r with
      | inr _ => print (CancelledBizarre order) ;; cancel_bizarre ticker rest
      | inl e => print (WarnCancelBizarre ticker e) ;; return_ None
      end
  end.

(** Lines 102-105: the condition under which the existing order is
    replaced ([!=] on floats is the negation of IEEE equality). *)
Definition differs (order_req : LimitOrderRequest) (order : Order) : bool :=
  negb (OrderSide_eqb (req_side order_req) (order_side order))
  || negb (PrimFloat.eqb (round2 (req_limit_price order_req))
                         (round2 (order_limit_price order)))
  || negb (PrimFloat.eqb (round2 (req_qty order_req))
                         (round2 (order_qty order)))
  || negb (TimeInForce_eqb (req_time_in_force order_req)
                           (order_time_in_force order)).

(** Lines 98-114: exactly one open order. *)
Definition reconcile_single (ticker : string)
    (order_req : option LimitOrderRequest) (order : Order)
  : Body B (option Order) unit :=
  let* req := read_local "order_req" order_req in
  if differs req order then
    let* r := call (CancelOrderById (order_id order))
                   (cancel_order_by_id (order_id order)) in
    match r with
    | inr _ => ret tt
    | inl e => print (WarnCancelExisting ticker e) ;; return_ None
    end
  else
    print (OrderAlreadyExists ticker) ;; return_ None.

(** Lines 117-120: the [try] around the submission.  The result is the
    binding of [new_order]: it stays unbound when the [try] block raises,
    which also happens when [order_req] is read unbound. *)
Definition try_submit (order_req : option LimitOrderRequest)
  : Body B (option Order) (option Order) :=
  match order_req with
  | None =>
      print (ErrorSubmitting (inr (UnboundLocalError "order_req"))) ;; ret None
  | Some req =>
      let* r := call (SubmitOrder req) (submit_order req) in
      match r with
      | inr new_order => ret (Some new_order)
      | inl e => print (ErrorSubmitting (inl e)) ;; ret None
      end
  end.

(** Lines 49-121.  The returned value is [None] for a bare [return] and
    [Some o] for the order the broker answered with. *)
Definition execute_trade_body (ticker : string)
    (buy_price sell_price : option float) (buy_quantity : Z)
  : Body B (option Order) (option Order) :=
  let* position := fetch_position ticker in
  let order_req :=
    make_order_req ticker position buy_price sell_price buy_quantity in
  let* orders := fetch_orders ticker in
  match orders with
  | _ :: _ :: _ =>
      print (WarnMultipleOrders ticker) ;; cancel_bizarre ticker orders
  | [order] => reconcile_single ticker order_req order
  | [] => ret tt
  end ;;
  let* new_order := try_submit order_req in
  let* o := read_local "new_order" new_order in
  return_ (Some o).

Definition execute_trade (ticker : string)
    (buy_price sell_price : option float) (buy_quantity : Z) (b : B)
  : Result (option Order) * B * list Event :=
  run_function (execute_trade_body ticker buy_price sell_price buy_quantity) b.

(** The broker's side of a run of cancel calls made one after the other
    and given up at the first refusal: the ids asked for, whether every
    call was accepted, and the broker afterwards. *)
Fixpoint cancel_run (ids : list string) (b : B) : list string * bool * B :=
  match ids with
  | [] => ([], true, b)
  | id :: rest =>
      match cancel_order_by_id id b with
      | (inr _, b') =>
          let '(asked, ok, b'') := cancel_run rest b' in (id :: asked, ok, b'')
      | (inl _, b') => ([id], false, b')
      end
  end.

(** ** The trader loop *)

(** The loop's local variables.  [order] is assigned only by line 149, so
    it is unbound until a call of [execute_trade] has returned. *)
Record LoopState : Type := mkLoopState {
  last_buy : option float;
  last_sell : option float;
  last_qty : option Z;
  order : option (option Order)
}.

(** Line 124. *)
Definition initial_state : LoopState := mkLoopState None None None None.

Record Intent : Type := mkIntent {
  buy_price : option float;
  sell_price : option float;
  buy_quantity : Z
}.

Local Open Scope result_scope.

(** Line 130; the message also names the two tickers. *)
Definition ticker_mismatch : PyExn :=
  ValueError "TRADER ERROR: Received unexpected ticker".

(** Lines 127-133: the entry of the ticker, the symbol check, and the
    [price] and [time] fields. *)
Definition read_tick (ticker : string) (msg : Snapshot) : Result (JVal * JVal) :=
  let? latest_market_make := getitem msg ticker in
  let? got_ticker := getitem latest_market_make "symbol" in
  if ne_str got_ticker ticker then
    Raised ticker_mismatch
  else
    let? price := getitem latest_market_make "price" in
    let? last_update := getitem latest_market_make "time" in
    Value (price, last_update).

(** Line 139: [time.time() - last_update > 5]. *)
Definition is_stale (now : float) (last_update : JVal) : Result bool :=
  let? age := float_sub now last_update in
  Value (PrimFloat.ltb 5 age).

(** Lines 127-142: the intent of the cycle, and whether the tick was
    found stale.  [now] is the value [time.time()] returns on line 139. *)
Definition compute_intent (ticker : string) (msg : Snapshot) (now : float)
  : Result (Intent * bool) :=
  let? (price, last_update) := read_tick ticker msg in
  let? buy := sub_float price 1.0 in
  let? sell := add_float price 1.0 in
  let? stale := is_stale now last_update in
  if stale then Value (mkIntent None None 1, true)
  else Value (mkIntent (Some buy) (Some sell) 1, false).

(** Line 144. *)
Definition same_as_last (i : Intent) (st : LoopState) : bool :=
  eq_opt_float (buy_price i) (last_buy st)
  && eq_opt_float (sell_price i) (last_sell st)
  && eq_int_opt (buy_quantity i) (last_qty st).

(** [==] between the triples of two intents, component by component. *)
Definition intent_eq (i j : Intent) : bool :=
  eq_opt_float (buy_price i) (buy_price j)
  && eq_opt_float (sell_price i) (sell_price j)
  && Z.eqb (buy_quantity i) (buy_quantity j).

(** How one iteration of [while True] ends. *)
Inductive Flow : Type :=
| NextIteration
| Propagate (e : PyExn).

(** Lines 127-154: one iteration on the received message [msg]. *)
Definition cycle (ticker : string) (msg : Snapshot) (now : float)
    (st : LoopState) (b : B) : Flow * LoopState * B * list Event :=
  match compute_intent ticker msg now with
  | Raised e => (Propagate e, st, b, [])
  | Value (i, stale) =>
      let warn := if stale then [Printed (WarnStale ticker)] else [] in
      if same_as_last i st then (NextIteration, st, b, warn ++ [Sleep])
      else
        let '(r, b', tr) :=
          execute_trade ticker (buy_price i) (sell_price i) (buy_quantity i) b in
        let '(order', caught) :=
          match r with
          | Value v => (Some v, [])
          | Raised e => (order st, [Printed (ErrorExecuting ticker e)])
          end in
        let st' :=
          mkLoopState (buy_price i) (sell_price i) (Some (buy_quantity i)) order' in
        match order' with
        | None =>
            (Propagate (UnboundLocalError "order"), st', b', warn ++ tr ++ caught)
        | Some None => (NextIteration, st', b', warn ++ tr ++ caught)
        | Some (Some o) =>
            (NextIteration, st', b', warn ++ tr ++ caught ++ [Printed (OrderUpdated o)])
        end
  end.

(** What the process is doing once the messages received so far have been
    consumed: blocked in [recv_json], or gone with an exception. *)
Inductive Status : Type :=
| Waiting
| Died (e : PyExn).

(** Lines 126-154: the loop, run on the messages the socket delivers, each
    paired with the clock reading of its iteration. *)
Fixpoint main_loop (ticker : string) (inputs : list (Snapshot * float))
    (st : LoopState) (b : B) : Status * LoopState * B * list Event :=
  match inputs with
  | [] => (Waiting, st, b, [])
  | (msg, now) :: rest =>
      match cycle ticker msg now st b with
      | (NextIteration, st1, b1, tr1) =>
          let '(s, st2, b2, tr2) := main_loop ticker rest st1 b1 in
          (s, st2, b2, tr1 ++ tr2)
      | (Propagate e, st1, b1, tr1) => (Died e, st1, b1, tr1)
      end
  end.

(** Lines 156-163: what the [except] and [finally] clauses do. *)
Definition cleanup (e : PyExn) : list Event :=
  [Printed (ProcessError e); SocketClose; ContextTerm;
   Printed SocketAndContextClosed].

(** Lines 123-163: the loop inside [try / except / finally].  An exception
    is reported and raised again after the [finally] clause has closed the
    socket and the context, which ends the process.  The client and the
    socket of lines 28-47 are taken to have been set up; [b] is the broker
    behind the client. *)
Definition individual_trade_execution (ticker : string) (port : Z)
    (inputs : list (Snapshot * float)) (b : B) : Status * B * list Event :=
  let '(s, _, b', tr) := main_loop ticker inputs initial_state b in
  match s with
  | Waiting => (Waiting, b', Printed (ClientInitialized ticker) :: tr)
  | Died e =>
      (Died e, b',
       Printed (ClientInitialized ticker) :: tr ++ cleanup e)
  end.

End Engine.

(** ** A small simulated broker, for running the engine on concrete input *)

Record Sim : Type := mkSim {
  sim_position : option Position;
  sim_open : list Order;
  sim_orders_down : bool;
  sim_cancel_down : list string;
  sim_submit_down : bool
}.

Definition sim_error (m : string) : BrokerExn := mkBrokerExn (Some m).

Definition sim_accept (req : LimitOrderRequest) : Order :=
  mkOrder "new" (req_symbol req) (req_side req) (req_qty req)
          (req_limit_price req) (req_time_in_force req).

#[export] Instance Sim_Broker : Broker Sim := {|
  get_open_position ticker s :=
    (match sim_position s with
     | Some p => inr p
     | None => inl (sim_error "position does not exist")
     end, s);
  get_orders ticker s :=
    (if sim_orders_down s then inl (sim_error "service unavailable")
     else inr (List.filter (fun o => String.eqb (order_symbol o) ticker) (sim_open s)),
     s);
  cancel_order_by_id id s :=
    if existsb (String.eqb id) (sim_cancel_down s)
    then (inl (sim_error "order is not cancelable"), s)
    else (inr tt,
          mkSim (sim_position s)
                (List.filter (fun o => negb (String.eqb (order_id o) id)) (sim_open s))
                (sim_orders_down s) (sim_cancel_down s) (sim_submit_down s));
  submit_order req s :=
    if sim_submit_down s then (inl (sim_error "insufficient buying power"), s)
    else (inr (sim_accept req),
          mkSim (sim_position s) (sim_open s ++ [sim_accept req])
                (sim_orders_down s) (sim_cancel_down s) (sim_submit_down s))
|}.

End Trading.

(* ===================================================================== *)
(** * main.py *)
(* ===================================================================== *)

Module Orchestrator.
Import Py.

(** The four worker entry points a process can be given as its target:
    [run_f] stands for the function [f] of the data and trading modules. *)
Inductive Target : Type :=
| run_realtime_price_publisher
| run_realtime_prices_manager
| run_realtime_price_display_consumer
| run_individual_trade_execution.

(** The elements of an argument tuple. *)
Inductive Arg : Type :=
| ATicker (ticker : string)
| ATickers (tickers : list string)
| APort (port : option Z)
| APorts (ports : list (option Z)).

(** A [multiprocessing.Process] that has been created, not started. *)
Record Process : Type := mkProcess {
  proc_target : Target;
  proc_args : list Arg
}.

Record ChildrenProcessesData : Type := mkCPD {
  next_free_port : Z;
  max_port : Z;
  child_processes : list Process
}.

(** Lines 25-31: the constructor. *)
Definition new_ChildrenProcessesData (initial_port max_port : Z)
  : Result ChildrenProcessesData :=
  if max_port <? initial_port then
    Raised (ValueError "Initial port exceeds maximum port.")
  else Value (mkCPD initial_port max_port []).

(** Line 52. *)
Definition no_more_ports : PyExn :=
  Exception_ "No more ports available, exceeded maximum allowed port number.".

(** Lines 33-65.  The object [cpd] is updated in place; the updated object
    is returned next to the function's own result.  When the function
    raises, [cpd] has not been touched.  The [isinstance] test of line 47
    holds by typing. *)
Definition register_process_with_port (target : option Target)
    (args : option (list Arg)) (need_port : bool)
    (cpd : option ChildrenProcessesData)
  : Result (Process * option Z * ChildrenProcessesData) :=
  match target, args, cpd with
  | Some target, Some args, Some cpd =>
      if need_port then
        if max_port cpd <? next_free_port cpd then
          Raised no_more_ports
        else
          let new_port := next_free_port cpd in
          let args_w_port := args ++ [APort (Some new_port)] in
          let process := mkProcess target args_w_port in
          Value (process, Some new_port,
                 mkCPD (next_free_port cpd + 1) (max_port cpd)
                       (child_processes cpd ++ [process]))
      else
        let process := mkProcess target args in
        Value (process, None,
               mkCPD (next_free_port cpd) (max_port cpd)
                     (child_processes cpd ++ [process]))
  | _, _, _ =>
      Raised (ValueError "register_process_with_port() requires target, args, and cpd arguments.")
  end.

Local Open Scope result_scope.

(** Lines 73-82: one publisher per ticker, collecting the ports. *)
Fixpoint register_publishers (tickers : list string)
    (cpd : ChildrenProcessesData)
  : Result (list (option Z) * ChildrenProcessesData) :=
  match tickers with
  | [] => Value ([], cpd)
  | ticker :: rest =>
      let? (_, publisher_port, cpd1) :=
        register_process_with_port (Some run_realtime_price_publisher)
          (Some [ATicker ticker]) true (Some cpd) in
      let? (realtime_price_ports, cpd2) := register_publishers rest cpd1 in
      Value (publisher_port :: realtime_price_ports, cpd2)
  end.

(** Lines 101-107: one trader per ticker. *)
Fixpoint register_traders (tickers : list string)
    (prices_manager_port : option Z)
    (cpd : ChildrenProcessesData) : Result ChildrenProcessesData :=
  match tickers with
  | [] => Value cpd
  | ticker :: rest =>
      let? (_, _, cpd1) :=
        register_process_with_port (Some run_individual_trade_execution)
          (Some [ATicker ticker; APort prices_manager_port]) false (Some cpd) in
      register_traders rest prices_manager_port cpd1
  end.

(** Lines 69-107: everything the script does before it starts a process. *)
Definition setup (tickers : list string) (initial_port max_port : Z)
  : Result ChildrenProcessesData :=
  let? child_processes_data := new_ChildrenProcessesData initial_port max_port in
  let? (realtime_price_ports, cpd1) :=
    register_publishers tickers child_processes_data in
  let? (_, prices_manager_port, cpd2) :=
    register_process_with_port (Some run_realtime_prices_manager)
      (Some [ATickers tickers; APorts realtime_price_ports]) true (Some cpd1) in
  let? (_, _, cpd3) :=
    register_process_with_port (Some run_realtime_price_display_consumer)
      (Some [ATickers tickers; APort prices_manager_port]) false (Some cpd2) in
  register_traders tickers prices_manager_port cpd3.

Inductive OrchEvent : Type :=
| Start (p : Process).

(** Lines 68-114 up to the supervision loop: the set-up, which is outside
    the [try], then [process.start()] for every registered process.  An
    exception of the set-up ends the script. *)
Definition main_with (tickers : list string) (initial_port max_port : Z)
  : Result unit * list OrchEvent :=
  match setup tickers initial_port max_port with
  | Raised e => (Raised e, [])
  | Value cpd => (Value tt, map Start (child_processes cpd))
  end.

(** The script with its own constants (lines 25 and 69). *)
Definition main : Result unit * list OrchEvent :=
  main_with ["AAPL"; "GOOGL"; "AMZN"; "MSFT"; "TSLA"] 13140 13399.

(** A run of registrations on one allocator, each with its [need_port]
    flag: the port (or [None]) every call returned and the allocator at
    the end; the run stops at the first call that raises. *)
Fixpoint register_all (reqs : list (Target * list Arg * bool))
    (cpd : ChildrenProcessesData)
  : Result (list (option Z) * ChildrenProcessesData) :=
  match reqs with
  | [] => Value ([], cpd)
  | (target, args, need_port) :: rest =>
      let? (_, new_port, cpd1) :=
        register_process_with_port (Some target) (Some args) need_port (Some cpd) in
      let? (assigned, cpd2) := register_all rest cpd1 in
      Value (new_port :: assigned, cpd2)
  end.

(** The ports among the values returned, in call order. *)
Fixpoint ports (assigned : list (option Z)) : list Z :=
  match assigned with
  | [] => []
  | Some port :: rest => port :: ports rest
  | None :: rest => ports rest
  end.

(** The topology the script builds when its ports suffice: the publishers
    on consecutive ports starting at [port], ... *)
Fixpoint publishers_from (tickers : list string) (port : Z) : list Process :=
  match tickers with
  | [] => []
  | ticker :: rest =>
      mkProcess run_realtime_price_publisher [ATicker ticker; APort (Some port)]
      :: publishers_from rest (port + 1)
  end.

Fixpoint ports_from (n : nat) (port : Z) : list (option Z) :=
  match n with
  | O => []
  | S n' => Some port :: ports_from n' (port + 1)
  end.

(** ... the aggregator reading those ports and publishing on the next one,
    and the display and one trader per ticker reading the aggregator's. *)
Definition expected_processes (tickers : list string) (initial_port : Z)
  : list Process :=
  let prices_manager_port := Some (initial_port + Z.of_nat (length tickers)) in
  publishers_from tickers initial_port
  ++ [mkProcess run_realtime_prices_manager
        [ATickers tickers; APorts (ports_from (length tickers) initial_port);
         APort prices_manager_port];
      mkProcess run_realtime_price_display_consumer
        [ATickers tickers; APort prices_manager_port]]
  ++ map (fun ticker =>
            mkProcess run_individual_trade_execution
              [ATicker ticker; APort prices_manager_port]) tickers.

End Orchestrator.

(* ===================================================================== *)
(** * Concrete inputs *)
(* ===================================================================== *)

Module Scenarios.
Import Py Trading.

(** A tick envelope as the publisher builds it. *)
Definition tick (symbol : string) (price time : float) : Entry :=
  <["symbol" := JStr symbol]>
    (<["price" := JNum price]> (<["time" := JNum time]> ∅)).

(** An aggregated envelope holding one symbol. *)
Definition snapshot_of (symbol : string) (price time : float) : Snapshot :=
  <[symbol := tick symbol price time]> ∅.

Definition bid : Order := mkOrder "o1" "AAPL" BUY 1 99.1 DAY.
Definition ask : Order := mkOrder "o2" "AAPL" SELL 1 101.1 DAY.

(** Brokers: no position and no order; one open order; two open orders;
    one whose submissions are refused. *)
Definition flat : Sim := mkSim None [] false [] false.
Definition one_open : Sim := mkSim None [bid] false [] false.
Definition two_open : Sim := mkSim None [bid; ask] false [] false.
Definition submit_refused : Sim := mkSim None [] false [] true.

End Scenarios.

(** More brokers and messages for running the code. *)
Module Fixtures.
Import Py Trading Scenarios.

(** A broker that is down: every call raises an exception whose [message]
    attribute is [outage_message] (absent for [None]). *)
Record Outage : Type := mkOutage {
  outage_message : option string
}.

#[export] Instance Outage_Broker : Broker Outage := {|
  get_open_position ticker s := (inl (mkBrokerExn (outage_message s)), s);
  get_orders ticker s := (inl (mkBrokerExn (outage_message s)), s);
  cancel_order_by_id id s := (inl (mkBrokerExn (outage_message s)), s);
  submit_order req s := (inl (mkBrokerExn (outage_message s)), s)
|}.

Definition gateway_down : Outage := mkOutage (Some "bad gateway").
Definition bare_error : Outage := mkOutage None.

(** Simulated brokers: a held position; the orders query failing; the one
    open order not cancelable; the one open order equal to the request of
    the 100.0 tick. *)
Definition holding : Sim := mkSim (Some (mkPosition "AAPL" 3)) [] false [] false.
Definition orders_down : Sim := mkSim None [] true [] false.
Definition cancel_refused : Sim := mkSim None [bid] false ["o1"] false.
Definition resting : Order := mkOrder "o3" "AAPL" BUY 1 99.0 DAY.
Definition already_placed : Sim := mkSim None [resting] false [] false.

(** The loop state once an order has been placed at 99.0. *)
Definition after_first_order : LoopState :=
  mkLoopState (Some 99.0%float) (Some 101.0%float) (Some 1) (Some (Some resting)).

(** One round of the aggregator behind two publishers, and two broken
    messages. *)
Definition round1 : list Entry :=
  [DataModule.get_realtime_price "AAPL" 1700000000 1;
   DataModule.get_realtime_price "MSFT" 1700000000.5 1].

Definition no_symbol : Entry :=
  <["price" := JNum 100.1]> (<["time" := JNum 1700000000]> ∅).

Definition no_price : Entry :=
  <["symbol" := JStr "AAPL"]> (<["time" := JNum 1700000000]> ∅).

End Fixtures.

(* ===================================================================== *)
(** * Properties of dataModule.py *)
(* ===================================================================== *)

Module DataModuleSpec.
Import Py DataModule.

Lemma publisher_loop_lookup ticker clock : forall (i : Z) (k : nat) (now : float),
  clock !! k = Some now ->
  broadcast (publisher_loop ticker clock i) !! k
  = Some (get_realtime_price ticker now (i + Z.of_nat k + 1)).
Proof.
  induction clock as [| t later IH]; intros i k now Hk; [discriminate |].
  destruct k as [| k]; cbn [publisher_loop broadcast].
  - injection Hk as ->. cbn. do 2 f_equal. lia.
  - cbn in Hk. change ((?x :: ?l) !! S k) with (l !! k).
    rewrite (IH (i + 1) k now Hk). do 2 f_equal. lia.
Qed.

Lemma get_realtime_price_fields ticker now i :
  get_realtime_price ticker now i !! "symbol" = Some (JStr ticker)
  /\ price_of (get_realtime_price ticker now i)
     = Some (100.0 + truediv_int i 10)%float
  /\ get_realtime_price ticker now i !! "time" = Some (JNum now).
Proof. repeat split. Qed.

(** C9, as the code has it.  The [i]-th tick a publisher broadcasts
    ([i >= 1], within the range where an int converts exactly to a float)
    carries the publisher's symbol, the clock reading of its iteration and
    the price [100.0 + i/10]; the counter is incremented before the price
    is computed, so the first tick carries 100.1 and the next two 100.2 and
    100.3. *)
Theorem publisher_tick_price
    (ticker : string) (port : Z) (clock : list float) (i : Z) (now : float) :
  1 <= i < 2 ^ 53 ->
  clock !! Z.to_nat (i - 1) = Some now ->
  exists m,
    broadcast (realtime_price_publisher ticker port clock) !! Z.to_nat (i - 1)
    = Some m
    /\ m !! "symbol" = Some (JStr ticker)
    /\ price_of m = Some (100.0 + truediv_int i 10)%float
    /\ m !! "time" = Some (JNum now)
    /\ (i = 1 -> price_of m = Some 100.1%float)
    /\ (i = 2 -> price_of m = Some 100.2%float)
    /\ (i = 3 -> price_of m = Some 100.3%float).
Proof.
  intros Hi Hclock. unfold realtime_price_publisher.
  rewrite (publisher_loop_lookup ticker clock 0 _ now Hclock).
  replace (0 + Z.of_nat (Z.to_nat (i - 1)) + 1) with i by lia.
  eexists. split; [reflexivity |].
  destruct (get_realtime_price_fields ticker now i) as (Hs & Hp & Ht).
  repeat split; trivial; intros ->; reflexivity.
Qed.

Lemma publisher_tick_price_witness :
  exists m,
    broadcast (realtime_price_publisher "AAPL" 13140
                 [1700000000.0; 1700000000.01]%float) !! 1%nat = Some m
    /\ price_of m = Some 100.2%float.
Proof.
  destruct (publisher_tick_price "AAPL" 13140
              [1700000000.0; 1700000000.01]%float 2 1700000000.01%float
              ltac:(lia) eq_refl)
    as (m & Hm & _ & _ & _ & _ & H2 & _).
  exists m. split; [exact Hm | exact (H2 eq_refl)].
Defined.

(** C9 as stated has the sequence start at 100.0: the first tick a
    publisher broadcasts has another price. *)
Lemma first_tick_price_not_100 :
  exists m p,
    broadcast (realtime_price_publisher "AAPL" 13140 [1700000000.0%float])
      !! 0%nat = Some m
    /\ price_of m = Some p
    /\ PrimFloat.eqb p 100.0 = false
    /\ p <> 100.0%float.
Proof.
  eexists _, _. split; [reflexivity |]. split; [reflexivity |].
  split; [reflexivity |]. intros Heq.
  apply (f_equal (fun x => PrimFloat.eqb x 100.0)) in Heq.
  vm_compute in Heq. discriminate.
Qed.

(** The display consumer skips a tracked symbol the snapshot lacks. *)
Lemma print_each_absent ticker tickers (prices : Snapshot) :
  prices !! ticker = None ->
  print_each (ticker :: tickers) prices = print_each tickers prices.
Proof. intros Habs. cbn [print_each]. rewrite Habs. reflexivity. Qed.

End DataModuleSpec.

(* ===================================================================== *)
(** * Properties of main.py *)
(* ===================================================================== *)

Module OrchestratorSpec.
Import Py Orchestrator.

Local Open Scope result_scope.

Lemma register_with_port_ok target args cpd :
  next_free_port cpd <= max_port cpd ->
  register_process_with_port (Some target) (Some args) true (Some cpd)
  = Value (mkProcess target (args ++ [APort (Some (next_free_port cpd))]),
           Some (next_free_port cpd),
           mkCPD (next_free_port cpd + 1) (max_port cpd)
                 (child_processes cpd
                  ++ [mkProcess target
                        (args ++ [APort (Some (next_free_port cpd))])])).
Proof.
  intros Hle. unfold register_process_with_port.
  destruct (Z.ltb_spec (max_port cpd) (next_free_port cpd)); [lia | reflexivity].
Qed.

Lemma register_with_port_exhausted target args cpd :
  max_port cpd < next_free_port cpd ->
  register_process_with_port (Some target) (Some args) true (Some cpd)
  = Raised no_more_ports.
Proof.
  intros Hlt. unfold register_process_with_port.
  destruct (Z.ltb_spec (max_port cpd) (next_free_port cpd)); [reflexivity | lia].
Qed.

(** What one successful registration does to the allocator. *)
Lemma register_step target args need_port cpd process new_port cpd' :
  register_process_with_port (Some target) (Some args) need_port (Some cpd)
  = Value (process, new_port, cpd') ->
  max_port cpd' = max_port cpd
  /\ child_processes cpd' = child_processes cpd ++ [process]
  /\ (if need_port
      then new_port = Some (next_free_port cpd)
           /\ next_free_port cpd <= max_port cpd
           /\ next_free_port cpd' = next_free_port cpd + 1
      else new_port = None /\ next_free_port cpd' = next_free_port cpd).
Proof.
  unfold register_process_with_port. destruct need_port.
  - destruct (Z.ltb_spec (max_port cpd) (next_free_port cpd)); [discriminate |].
    intros [= <- <- <-]. cbn. repeat split; trivial.
  - intros [= <- <- <-]. cbn. repeat split; trivial.
Qed.

(** The allocator only moves forward, and every port it hands out lies
    between the free port it started from and the maximum. *)
Lemma register_all_ports reqs : forall cpd assigned cpd',
  register_all reqs cpd = Value (assigned, cpd') ->
  max_port cpd' = max_port cpd
  /\ next_free_port cpd <= next_free_port cpd'
  /\ Forall (fun p => next_free_port cpd <= p <= max_port cpd) (ports assigned)
  /\ StronglySorted Z.lt (ports assigned).
Proof.
  induction reqs as [| [[target args] need_port] rest IH]; intros cpd assigned cpd'.
  - intros [= <- <-]. cbn. repeat split; try lia; constructor.
  - cbn [register_all].
    destruct (register_process_with_port (Some target) (Some args) need_port (Some cpd))
      as [[[process new_port] cpd1] | e] eqn:Hreg; [| discriminate].
    cbn [rbind].
    destruct (register_all rest cpd1) as [[assigned1 cpd2] | e] eqn:Hrest;
      [| discriminate].
    cbn [rbind]. intros [= <- <-].
    apply register_step in Hreg as (Hmax & _ & Hport).
    destruct (IH _ _ _ Hrest) as (Hmax2 & Hnext & Hrange & Hsorted).
    rewrite Hmax in Hmax2, Hrange.
    destruct need_port.
    + destruct Hport as (-> & Hle & Hnext1). rewrite Hnext1 in Hnext, Hrange.
      cbn [ports]. repeat split; try lia.
      * constructor; [lia |].
        eapply Forall_impl; [exact Hrange |]. cbn. intros; lia.
      * constructor; [exact Hsorted |].
        eapply Forall_impl; [exact Hrange |]. cbn. intros; lia.
    + destruct Hport as (-> & Hnext1). rewrite Hnext1 in Hnext, Hrange.
      cbn [ports]. repeat split; trivial.
Qed.

Lemma strictly_increasing_NoDup (l : list Z) :
  StronglySorted Z.lt l -> NoDup l.
Proof.
  induction 1 as [| x l Hs IH Hall]; constructor; trivial.
  intros Hin. rewrite Forall_forall in Hall.
  specialize (Hall _ Hin). lia.
Qed.

(** The publishers of the script take consecutive ports. *)
Lemma register_publishers_ok tickers : forall cpd,
  next_free_port cpd + Z.of_nat (length tickers) <= max_port cpd + 1 ->
  exists realtime_price_ports cpd',
    register_publishers tickers cpd = Value (realtime_price_ports, cpd')
    /\ next_free_port cpd' = next_free_port cpd + Z.of_nat (length tickers)
    /\ max_port cpd' = max_port cpd.
Proof.
  induction tickers as [| ticker rest IH]; intros cpd Hfit.
  - exists [], cpd. cbn. repeat split; lia.
  - cbn [length] in Hfit. cbn [register_publishers].
    rewrite register_with_port_ok by lia. cbn [rbind].
    edestruct IH as (ps & cpd' & -> & Hnext & Hmax); [cbn; lia |].
    cbn in Hnext, Hmax. cbn [rbind length].
    eexists _, _. repeat split; [lia | exact Hmax].
Qed.

Lemma register_publishers_exhausted tickers : forall cpd,
  next_free_port cpd <= max_port cpd + 1 ->
  max_port cpd + 1 < next_free_port cpd + Z.of_nat (length tickers) ->
  register_publishers tickers cpd = Raised no_more_ports.
Proof.
  induction tickers as [| ticker rest IH]; intros cpd Hinv Hover.
  - cbn in Hover. lia.
  - cbn [length] in Hover. cbn [register_publishers].
    destruct (Z.le_gt_cases (next_free_port cpd) (max_port cpd)) as [Hle | Hgt].
    + rewrite register_with_port_ok by lia. cbn [rbind].
      rewrite IH; [reflexivity | cbn; lia | cbn; lia].
    + rewrite register_with_port_exhausted by lia. reflexivity.
Qed.

(** With fewer ports than publishers plus the one aggregator, the set-up
    raises. *)
Lemma setup_exhausted tickers initial_port max_port :
  initial_port <= max_port ->
  max_port < initial_port + Z.of_nat (length tickers) ->
  setup tickers initial_port max_port = Raised no_more_ports.
Proof.
  intros Hle Hover. unfold setup, new_ChildrenProcessesData.
  destruct (Z.ltb_spec max_port initial_port); [lia |]. cbn [rbind].
  destruct (Z.le_gt_cases (initial_port + Z.of_nat (length tickers)) max_port)
    as [Hfit | Hnofit]; [lia |].
  destruct (Z.eq_dec (initial_port + Z.of_nat (length tickers)) (max_port + 1))
    as [Hexact | Hmore].
  - edestruct (register_publishers_ok tickers (mkCPD initial_port max_port []))
      as (ps & cpd' & -> & Hnext & Hmax); [cbn; lia |].
    cbn in Hnext, Hmax. cbn [rbind].
    rewrite register_with_port_exhausted by lia. reflexivity.
  - rewrite register_publishers_exhausted; [reflexivity | cbn; lia | cbn; lia].
Qed.

(** The script's own constants leave room: every process is registered and
    started, the publishers on 13140-13144 and the aggregator on 13145. *)
Example main_starts_all :
  exists started,
    main = (Value tt, started)
    /\ length started = 12%nat
    /\ started !! 5%nat
       = Some (Start (mkProcess run_realtime_prices_manager
            [ATickers ["AAPL"; "GOOGL"; "AMZN"; "MSFT"; "TSLA"];
             APorts [Some 13140; Some 13141; Some 13142; Some 13143; Some 13144];
             APort (Some 13145)])).
Proof.
  eexists. split; [vm_compute; reflexivity |].
  split; reflexivity.
Qed.

(** C6.  From the allocator's initial state and after any run of successful
    registrations: the ports handed out are strictly increasing, pairwise
    distinct and within the configured range; a port-needing registration
    made when the next free port equals [max_port] succeeds and returns
    [max_port], and every port-needing registration that follows it right
    away raises; and when the script's range is too short for its
    publishers and its aggregator, the script ends with that exception
    without having started any process. *)
Theorem port_allocation_bounds
    (initial_port max_port : Z) (cpd0 : ChildrenProcessesData)
    (reqs : list (Target * list Arg * bool)) (assigned : list (option Z))
    (cpd : ChildrenProcessesData) (target : Target) (args : list Arg)
    (tickers : list string) :
  new_ChildrenProcessesData initial_port max_port = Value cpd0 ->
  register_all reqs cpd0 = Value (assigned, cpd) ->
  StronglySorted Z.lt (ports assigned)
  /\ NoDup (ports assigned)
  /\ Forall (fun p => initial_port <= p <= max_port) (ports assigned)
  /\ (next_free_port cpd = max_port ->
      exists process cpd',
        register_process_with_port (Some target) (Some args) true (Some cpd)
        = Value (process, Some max_port, cpd')
        /\ forall target' args',
             register_process_with_port (Some target') (Some args') true (Some cpd')
             = Raised no_more_ports)
  /\ (max_port < initial_port + Z.of_nat (length tickers) ->
      main_with tickers initial_port max_port = (Raised no_more_ports, [])).
Proof.
  intros Hnew Hrun.
  assert (Hcpd0 : initial_port <= max_port
                  /\ cpd0 = mkCPD initial_port max_port []).
  { unfold new_ChildrenProcessesData in Hnew.
    destruct (Z.ltb_spec max_port initial_port); [discriminate |].
    injection Hnew as <-. split; [lia | reflexivity]. }
  destruct Hcpd0 as [Hle ->].
  destruct (register_all_ports _ _ _ _ Hrun) as (Hmax & Hnext & Hrange & Hsorted).
  cbn in Hmax, Hnext, Hrange.
  split; [exact Hsorted |].
  split; [apply strictly_increasing_NoDup, Hsorted |].
  split; [exact Hrange |].
  split.
  - intros Hlast. eexists _, _. split.
    + rewrite register_with_port_ok by lia. rewrite Hlast at 2. reflexivity.
    + intros target' args'. apply register_with_port_exhausted. cbn. lia.
  - intros Hshort. unfold main_with.
    rewrite setup_exhausted by lia. reflexivity.
Qed.

(** Two ports for two publishers and one aggregator: both publishers get a
    port, the second one the maximum; the aggregator's registration raises
    and the script starts nothing. *)
Lemma port_allocation_bounds_witness :
  let cpd0 := mkCPD 13140 13141 [] in
  let reqs := [(run_realtime_price_publisher, [ATicker "AAPL"], true)] in
  let cpd := mkCPD 13141 13141 [mkProcess run_realtime_price_publisher
                                  [ATicker "AAPL"; APort (Some 13140)]] in
  new_ChildrenProcessesData 13140 13141 = Value cpd0
  /\ register_all reqs cpd0 = Value ([Some 13140], cpd)
  /\ StronglySorted Z.lt [13140]
  /\ (exists process cpd',
        register_process_with_port (Some run_realtime_price_publisher)
          (Some [ATicker "GOOGL"]) true (Some cpd)
        = Value (process, Some 13141, cpd')
        /\ forall target' args',
             register_process_with_port (Some target') (Some args') true (Some cpd')
             = Raised no_more_ports)
  /\ main_with ["AAPL"; "GOOGL"] 13140 13141 = (Raised no_more_ports, []).
Proof.
  cbv zeta.
  pose proof (port_allocation_bounds 13140 13141
                (mkCPD 13140 13141 [])
                [(run_realtime_price_publisher, [ATicker "AAPL"], true)]
                [Some 13140]
                (mkCPD 13141 13141 [mkProcess run_realtime_price_publisher
                                      [ATicker "AAPL"; APort (Some 13140)]])
                run_realtime_price_publisher [ATicker "GOOGL"] ["AAPL"; "GOOGL"]
                eq_refl eq_refl) as (Hsorted & _ & _ & Hlast & Hmain).
  split; [reflexivity |].
  split; [reflexivity |].
  split; [exact Hsorted |].
  split; [apply Hlast; reflexivity |].
  apply Hmain. cbn. lia.
Defined.

End OrchestratorSpec.

(* ===================================================================== *)
(** * Properties of tradingModule.py *)
(* ===================================================================== *)

Module TradingSpec.
Import Py Trading.

(** Unfolds the statement combinators of a function body. *)
Ltac body_step :=
  unfold bind, call, print, emit, ret, return_, raise, read_local; cbn.

Lemma cancelled_ids_app tr1 tr2 :
  cancelled_ids (tr1 ++ tr2) = cancelled_ids tr1 ++ cancelled_ids tr2.
Proof.
  induction tr1 as [| ev tr1 IH]; [reflexivity |].
  destruct ev; cbn; rewrite ?IH; reflexivity.
Qed.

Lemma submitted_app tr1 tr2 :
  submitted (tr1 ++ tr2) = submitted tr1 ++ submitted tr2.
Proof.
  induction tr1 as [| ev tr1 IH]; [reflexivity |].
  destruct ev; cbn; rewrite ?IH; reflexivity.
Qed.

Section EngineSpec.
Context {B : Type} `{Broker B}.
Variable round2 : float -> float.

(** ** The intent of a cycle *)

(** C4.  A tick for the engine's ticker whose age [now - time] exceeds 5
    seconds gives the intent [(None, None, 1)], whatever its price. *)
Theorem stale_tick_flattens
    (ticker : string) (msg : Snapshot) (entry : Entry)
    (price last_update now : float) :
  msg !! ticker = Some entry ->
  entry !! "symbol" = Some (JStr ticker) ->
  entry !! "price" = Some (JNum price) ->
  entry !! "time" = Some (JNum last_update) ->
  PrimFloat.ltb 5 (now - last_update) = true ->
  exists i,
    compute_intent ticker msg now = Value (i, true)
    /\ buy_price i = None
    /\ sell_price i = None.
Proof.
  intros Hmsg Hsym Hprice Htime Hold.
  unfold compute_intent, read_tick, getitem.
  rewrite Hmsg. cbn [rbind]. rewrite Hsym. cbn [rbind ne_str].
  rewrite String.eqb_refl. cbn [negb]. rewrite Hprice, Htime.
  cbn [rbind sub_float add_float is_stale float_sub]. rewrite Hold.
  eexists. repeat split.
Qed.

(** ** The short-circuit of line 144 *)

Lemma cycle_skips ticker msg now st (b : B) i stale :
  compute_intent ticker msg now = Value (i, stale) ->
  same_as_last i st = true ->
  exists tr,
    cycle round2 ticker msg now st b = (NextIteration, st, b, tr)
    /\ List.filter is_broker_call tr = [].
Proof.
  intros Hi Hsame. unfold cycle. rewrite Hi, Hsame.
  destruct stale; eexists; split; reflexivity.
Qed.

(** C3.  A cycle whose intent equals the stored triple leaves the loop
    state and the broker as they were and makes no broker call. *)
Theorem idempotent_cycle_no_broker_calls
    (ticker : string) (msg : Snapshot) (now : float) (st : LoopState) (b : B)
    (i : Intent) (stale : bool) :
  compute_intent ticker msg now = Value (i, stale) ->
  same_as_last i st = true ->
  exists tr,
    cycle round2 ticker msg now st b = (NextIteration, st, b, tr)
    /\ List.filter is_broker_call tr = [].
Proof. apply cycle_skips. Qed.

(** ** The update of line 152 *)

Lemma cycle_updates_last ticker msg now st (b : B) i stale :
  compute_intent ticker msg now = Value (i, stale) ->
  same_as_last i st = false ->
  exists flow st' b' tr,
    cycle round2 ticker msg now st b = (flow, st', b', tr)
    /\ last_buy st' = buy_price i
    /\ last_sell st' = sell_price i
    /\ last_qty st' = Some (buy_quantity i).
Proof.
  intros Hi Hnew. unfold cycle. rewrite Hi, Hnew.
  destruct (execute_trade round2 ticker (buy_price i) (sell_price i)
              (buy_quantity i) b) as [[r b'] tr].
  destruct r as [[o |] | e]; [| | destruct (order st) as [[o |] |]];
    eexists _, _, _, _; repeat split.
Qed.

Lemma same_as_last_after i j st :
  last_buy st = buy_price j ->
  last_sell st = sell_price j ->
  last_qty st = Some (buy_quantity j) ->
  same_as_last i st = intent_eq i j.
Proof.
  intros Hb Hs Hq. unfold same_as_last, intent_eq.
  rewrite Hb, Hs, Hq. reflexivity.
Qed.

(** C7.  A cycle that gets past the check of line 144 ends with the stored
    triple equal to its intent, whether [execute_trade] returned or raised
    and whether the loop goes on or not; if the loop goes on, a next cycle
    with an equal intent makes no broker call. *)
Theorem last_intent_updated
    (ticker : string) (msg : Snapshot) (now : float) (st : LoopState) (b : B)
    (i : Intent) (stale : bool) :
  compute_intent ticker msg now = Value (i, stale) ->
  same_as_last i st = false ->
  exists flow st' b' tr,
    cycle round2 ticker msg now st b = (flow, st', b', tr)
    /\ last_buy st' = buy_price i
    /\ last_sell st' = sell_price i
    /\ last_qty st' = Some (buy_quantity i)
    /\ forall msg2 now2 i2 stale2,
         flow = NextIteration ->
         compute_intent ticker msg2 now2 = Value (i2, stale2) ->
         intent_eq i2 i = true ->
         exists tr2,
           cycle round2 ticker msg2 now2 st' b' = (NextIteration, st', b', tr2)
           /\ List.filter is_broker_call tr2 = [].
Proof.
  intros Hi Hnew.
  destruct (cycle_updates_last ticker msg now st b i stale Hi Hnew)
    as (flow & st' & b' & tr & Hcycle & Hb & Hs & Hq).
  exists flow, st', b', tr. repeat split; trivial.
  intros msg2 now2 i2 stale2 _ Hi2 Heq.
  apply (cycle_skips ticker msg2 now2 st' b' i2 stale2 Hi2).
  rewrite (same_as_last_after i2 i st' Hb Hs Hq). exact Heq.
Qed.

(** ** Exceptions that leave the loop *)

Lemma cycle_propagates ticker msg now st (b : B) e :
  compute_intent ticker msg now = Raised e ->
  cycle round2 ticker msg now st b = (Propagate e, st, b, []).
Proof. intros He. unfold cycle. rewrite He. reflexivity. Qed.

Lemma main_loop_app ticker earlier later : forall st (b : B),
  main_loop round2 ticker (earlier ++ later) st b
  = match main_loop round2 ticker earlier st b with
    | (Waiting, st1, b1, tr1) =>
        let '(s, st2, b2, tr2) := main_loop round2 ticker later st1 b1 in
        (s, st2, b2, tr1 ++ tr2)
    | (Died e, st1, b1, tr1) => (Died e, st1, b1, tr1)
    end.
Proof.
  induction earlier as [| [msg now] earlier IH]; intros st b.
  - cbn. destruct (main_loop round2 ticker later st b) as [[[s st2] b2] tr2].
    reflexivity.
  - cbn [app main_loop].
    destruct (cycle round2 ticker msg now st b) as [[[flow st1] b1] tr1].
    destruct flow; [| reflexivity].
    rewrite IH.
    destruct (main_loop round2 ticker earlier st1 b1) as [[[s st2] b2] tr2].
    destruct s; [| reflexivity].
    destruct (main_loop round2 ticker later st2 b2) as [[[s3 st3] b3] tr3].
    rewrite app_assoc. reflexivity.
Qed.

(** A message on which the intent computation raises ends a running
    process: nothing more is asked of the broker, the exception is
    reported, the socket and the context are closed, and the messages
    that follow are not read. *)
Lemma fatal_message ticker port msg now e earlier later (b b1 : B) tr1 :
  compute_intent ticker msg now = Raised e ->
  individual_trade_execution round2 ticker port earlier b = (Waiting, b1, tr1) ->
  individual_trade_execution round2 ticker port (earlier ++ (msg, now) :: later) b
  = (Died e, b1, tr1 ++ cleanup e).
Proof.
  intros He. unfold individual_trade_execution. rewrite main_loop_app.
  destruct (main_loop round2 ticker earlier initial_state b)
    as [[[s st1] b'] tr] eqn:Hearlier.
  destruct s; [| discriminate]. intros [= <- <-].
  cbn [main_loop]. rewrite (cycle_propagates _ _ _ _ _ _ He).
  rewrite app_nil_r. reflexivity.
Qed.

(** C8.  When the entry received for the engine's ticker carries another
    symbol, the running process raises the ticker-mismatch error, reports
    it, closes its socket and context and ends; no later message is read
    and the broker is not called. *)
Theorem ticker_mismatch_is_fatal
    (ticker : string) (port : Z) (msg : Snapshot) (entry : Entry) (got : JVal)
    (now : float) (earlier later : list (Snapshot * float)) (b b1 : B)
    (tr1 : list Event) :
  msg !! ticker = Some entry ->
  entry !! "symbol" = Some got ->
  ne_str got ticker = true ->
  individual_trade_execution round2 ticker port earlier b = (Waiting, b1, tr1) ->
  individual_trade_execution round2 ticker port (earlier ++ (msg, now) :: later) b
  = (Died ticker_mismatch, b1,
     tr1 ++ [Printed (ProcessError ticker_mismatch); SocketClose; ContextTerm;
             Printed SocketAndContextClosed]).
Proof.
  intros Hmsg Hsym Hne. apply fatal_message.
  unfold compute_intent, read_tick, getitem.
  rewrite Hmsg. cbn [rbind]. rewrite Hsym. cbn [rbind]. rewrite Hne.
  reflexivity.
Qed.

(** C10.  When the snapshot received has no entry for the engine's ticker,
    the running trader raises [KeyError], reports it, closes its socket and
    context and ends, without calling the broker; the display consumer
    handles the same snapshot as if it did not track that ticker. *)
Theorem missing_symbol_is_fatal
    (ticker : string) (port : Z) (msg : Snapshot) (now : float)
    (earlier later : list (Snapshot * float)) (b b1 : B) (tr1 : list Event)
    (tickers : list string) :
  msg !! ticker = None ->
  individual_trade_execution round2 ticker port earlier b = (Waiting, b1, tr1) ->
  individual_trade_execution round2 ticker port (earlier ++ (msg, now) :: later) b
  = (Died (KeyError ticker), b1,
     tr1 ++ [Printed (ProcessError (KeyError ticker)); SocketClose; ContextTerm;
             Printed SocketAndContextClosed])
  /\ DataModule.print_realtime_price (ticker :: tickers) msg
     = DataModule.print_realtime_price tickers msg.
Proof.
  intros Habsent Hrunning. split.
  - apply fatal_message; [| exact Hrunning].
    unfold compute_intent, read_tick, getitem. rewrite Habsent. reflexivity.
  - unfold DataModule.print_realtime_price.
    rewrite (DataModuleSpec.print_each_absent _ _ _ Habsent). reflexivity.
Qed.

(** ** The anomalous state: more than one open order *)

Lemma fetch_position_trace ticker (b b1 : B) c tr1 :
  fetch_position ticker b = (c, b1, tr1) ->
  cancelled_ids tr1 = [] /\ submitted tr1 = [].
Proof.
  unfold fetch_position. body_step.
  destruct (get_open_position ticker b) as [[e | position] b'].
  - destruct (exn_message e) as [m |]; cbn.
    + destruct (str_in "position does not exist" m); cbn;
        intros [= <- <- <-]; split; reflexivity.
    + intros [= <- <- <-]; split; reflexivity.
  - cbn. intros [= <- <- <-]; split; reflexivity.
Qed.

(** The loop of lines 91-97 asks the broker exactly for the cancels of
    [cancel_run]; it falls through when all were accepted and returns
    otherwise. *)
Lemma cancel_bizarre_run ticker orders : forall (b : B) asked ok b3,
  cancel_run (map order_id orders) b = (asked, ok, b3) ->
  exists tr,
    cancel_bizarre ticker orders b
    = ((if ok then Normal tt else Return None), b3, tr)
    /\ cancelled_ids tr = asked
    /\ submitted tr = []
    /\ (ok = true -> asked = map order_id orders).
Proof.
  induction orders as [| o rest IH]; intros b asked ok b3.
  - cbn. intros [= <- <- <-]. eexists. repeat split.
  - cbn [map cancel_run cancel_bizarre]. body_step.
    destruct (cancel_order_by_id (order_id o) b) as [[e | []] b'].
    + intros [= <- <- <-]. cbn. eexists. repeat split. discriminate.
    + destruct (cancel_run (map order_id rest) b') as [[asked' ok'] b''] eqn:Hrun.
      intros [= <- <- <-].
      destruct (IH _ _ _ _ Hrun) as (tr & -> & Hc & Hs & Hall).
      cbn. destruct ok'; eexists; (split; [reflexivity |]); cbn;
        rewrite Hc, Hs; repeat split; try discriminate.
      intros _. rewrite Hall; reflexivity.
Qed.

(** C1, as the code has it.  When the position step has gone through, an
    order request has been built and the broker reports more than one open
    order, the engine asks for their cancellation one by one in the order
    reported.  At the first refusal it stops: the remaining orders are not
    asked for, nothing is submitted and the call returns.  When every
    cancel is accepted, all of them have been asked for and the engine goes
    on to submit the order request in the same cycle. *)
Theorem anomaly_cancels_then_submits
    (ticker : string) (buy_price sell_price : option float) (buy_quantity : Z)
    (b b1 b2 : B) (position : option Position) (tr1 : list Event)
    (orders : list Order) (req : LimitOrderRequest) :
  fetch_position ticker b = (Normal position, b1, tr1) ->
  get_orders ticker b1 = (inr orders, b2) ->
  (1 < length orders)%nat ->
  make_order_req ticker position buy_price sell_price buy_quantity = Some req ->
  exists r b' tr asked ok b3,
    execute_trade round2 ticker buy_price sell_price buy_quantity b = (r, b', tr)
    /\ cancel_run (map order_id orders) b2 = (asked, ok, b3)
    /\ cancelled_ids tr = asked
    /\ (if ok
        then asked = map order_id orders
             /\ submitted tr = [req]
             /\ b' = snd (submit_order req b3)
        else submitted tr = [] /\ r = Value None /\ b' = b3).
Proof.
  intros Hpos Horders Hlen Hreq.
  destruct (fetch_position_trace _ _ _ _ _ Hpos) as [Hc1 Hs1].
  destruct (cancel_run (map order_id orders) b2) as [[asked ok] b3] eqn:Hrun.
  destruct (cancel_bizarre_run ticker orders b2 asked ok b3 Hrun)
    as (trc & Hloop & Hc & Hs & Hall).
  unfold execute_trade, run_function, execute_trade_body.
  unfold bind at 1. rewrite Hpos. rewrite Hreq.
  unfold bind at 1. unfold fetch_orders. unfold bind at 1, call at 1.
  rewrite Horders. unfold ret at 1.
  destruct orders as [| o1 [| o2 rest]]; [cbn in Hlen; lia | cbn in Hlen; lia |].
  unfold bind at 1. unfold bind at 1, print at 1, emit at 1.
  rewrite Hloop. destruct ok.
  - unfold try_submit. body_step.
    destruct (submit_order req b3) as [[e | new_order] b4] eqn:Hsub; cbn;
      eexists _, _, _, _, true, _; (split; [reflexivity |]);
      (split; [reflexivity |]);
      rewrite !cancelled_ids_app, !submitted_app, Hc1, Hs1; cbn;
      rewrite !cancelled_ids_app, !submitted_app, Hc, Hs, Hsub; cbn;
      rewrite ?app_nil_r; repeat split; auto.
  - eexists _, _, _, _, false, _. split; [reflexivity |].
    split; [reflexivity |].
    rewrite !cancelled_ids_app, !submitted_app, Hc1, Hs1. cbn.
    rewrite Hc, Hs, ?app_nil_r. repeat split.
Qed.

(** ** Exactly one open order *)

(** X12.  An open order that matches the order request on the four
    compared fields is left alone: no cancel, no submit. *)
Lemma single_order_same_noop ticker buy_price sell_price buy_quantity
    (b b1 b2 : B) position tr1 order req :
  fetch_position ticker b = (Normal position, b1, tr1) ->
  get_orders ticker b1 = (inr [order], b2) ->
  make_order_req ticker position buy_price sell_price buy_quantity = Some req ->
  differs round2 req order = false ->
  exists tr,
    execute_trade round2 ticker buy_price sell_price buy_quantity b
    = (Value None, b2, tr)
    /\ cancelled_ids tr = [] /\ submitted tr = [].
Proof.
  intros Hpos Horders Hreq Hsame.
  destruct (fetch_position_trace _ _ _ _ _ Hpos) as [Hc1 Hs1].
  unfold execute_trade, run_function, execute_trade_body.
  unfold bind at 1. rewrite Hpos, Hreq.
  unfold bind at 1. unfold fetch_orders. unfold bind at 1, call at 1.
  rewrite Horders. unfold reconcile_single. body_step. rewrite Hsame. cbn.
  eexists. split; [reflexivity |].
  rewrite !cancelled_ids_app, !submitted_app, Hc1, Hs1. split; reflexivity.
Qed.

(** X13.  An open order that differs from the order request is cancelled;
    when the cancel is refused the call returns without submitting,
    otherwise the order request is submitted. *)
Lemma single_order_differs_cancel ticker buy_price sell_price buy_quantity
    (b b1 b2 : B) position tr1 order req :
  fetch_position ticker b = (Normal position, b1, tr1) ->
  get_orders ticker b1 = (inr [order], b2) ->
  make_order_req ticker position buy_price sell_price buy_quantity = Some req ->
  differs round2 req order = true ->
  exists r b' tr,
    execute_trade round2 ticker buy_price sell_price buy_quantity b = (r, b', tr)
    /\ cancelled_ids tr = [order_id order]
    /\ match cancel_order_by_id (order_id order) b2 with
       | (inl _, b3) => submitted tr = [] /\ r = Value None /\ b' = b3
       | (inr _, b3) => submitted tr = [req]
       end.
Proof.
  intros Hpos Horders Hreq Hdiff.
  destruct (fetch_position_trace _ _ _ _ _ Hpos) as [Hc1 Hs1].
  unfold execute_trade, run_function, execute_trade_body.
  unfold bind at 1. rewrite Hpos, Hreq.
  unfold bind at 1. unfold fetch_orders. unfold bind at 1, call at 1.
  rewrite Horders. unfold reconcile_single, try_submit. body_step.
  rewrite Hdiff. cbn.
  destruct (cancel_order_by_id (order_id order) b2) as [[e | []] b3]; cbn.
  - eexists _, _, _. split; [reflexivity |].
    rewrite !cancelled_ids_app, !submitted_app, Hc1, Hs1. repeat split.
  - destruct (submit_order req b3) as [[e | new_order] b4]; cbn;
      eexists _, _, _; (split; [reflexivity |]);
      rewrite !cancelled_ids_app, !submitted_app, Hc1, Hs1; repeat split.
Qed.

(** ** Survival of the loop *)

(** Once [order] has been assigned, no broker failure leaves the loop. *)
Lemma cycle_survives_when_order_bound ticker msg now st (b : B) i stale v :
  compute_intent ticker msg now = Value (i, stale) ->
  order st = Some v ->
  exists st' b' tr,
    cycle round2 ticker msg now st b = (NextIteration, st', b', tr)
    /\ is_Some (order st').
Proof.
  intros Hi Hbound. unfold cycle. rewrite Hi.
  destruct (same_as_last i st).
  - eexists _, _, _. split; [reflexivity |]. rewrite Hbound. eauto.
  - destruct (execute_trade round2 ticker (buy_price i) (sell_price i)
                (buy_quantity i) b) as [[r b'] tr].
    destruct r as [[o |] | e]; [| | rewrite Hbound; destruct v as [o |]];
      eexists _, _, _; (split; [reflexivity |]); cbn; eauto.
Qed.

End EngineSpec.

(** ** The engine on concrete input *)

Import Scenarios.

Lemma stale_tick_flattens_witness :
  PrimFloat.ltb 5 (1700000010 - 1700000000) = true
  /\ exists i,
       compute_intent "AAPL" (snapshot_of "AAPL" 250.5 1700000000) 1700000010
       = Value (i, true)
       /\ buy_price i = None /\ sell_price i = None.
Proof.
  split; [reflexivity |].
  apply (stale_tick_flattens "AAPL" (snapshot_of "AAPL" 250.5 1700000000)
           (tick "AAPL" 250.5 1700000000) 250.5 1700000000 1700000010);
    reflexivity.
Defined.

Lemma idempotent_cycle_no_broker_calls_witness :
  let st := mkLoopState (Some 99.0%float) (Some 101.0%float) (Some 1) (Some None) in
  same_as_last (mkIntent (Some 99.0%float) (Some 101.0%float) 1) st = true
  /\ exists tr,
       cycle py_round2 "AAPL" (snapshot_of "AAPL" 100.0 1700000000) 1700000001
         st flat
       = (NextIteration, st, flat, tr)
       /\ List.filter is_broker_call tr = [].
Proof.
  cbv zeta. split; [reflexivity |].
  apply (idempotent_cycle_no_broker_calls py_round2 "AAPL"
           (snapshot_of "AAPL" 100.0 1700000000) 1700000001
           (mkLoopState (Some 99.0%float) (Some 101.0%float) (Some 1) (Some None))
           flat (mkIntent (Some 99.0%float) (Some 101.0%float) 1) false);
    reflexivity.
Defined.

Lemma last_intent_updated_witness :
  same_as_last (mkIntent (Some 99.0%float) (Some 101.0%float) 1) initial_state
  = false
  /\ exists flow st' b' tr,
       cycle py_round2 "AAPL" (snapshot_of "AAPL" 100.0 1700000000) 1700000001
         initial_state submit_refused
       = (flow, st', b', tr)
       /\ last_buy st' = Some 99.0%float
       /\ last_sell st' = Some 101.0%float
       /\ last_qty st' = Some 1.
Proof.
  split; [reflexivity |].
  destruct (last_intent_updated py_round2 "AAPL"
              (snapshot_of "AAPL" 100.0 1700000000) 1700000001
              initial_state submit_refused
              (mkIntent (Some 99.0%float) (Some 101.0%float) 1) false
              eq_refl eq_refl)
    as (flow & st' & b' & tr & Hcycle & Hb & Hs & Hq & _).
  exists flow, st', b', tr. repeat split; assumption.
Defined.

Lemma ticker_mismatch_is_fatal_witness :
  let msg : Snapshot := <["AAPL" := tick "MSFT" 100.0 1700000000]> ∅ in
  individual_trade_execution py_round2 "AAPL" 13145 [] flat
  = (Waiting, flat, [Printed (ClientInitialized "AAPL")])
  /\ individual_trade_execution py_round2 "AAPL" 13145
       ([] ++ (msg, 1700000001%float) :: [(snapshot_of "AAPL" 100.0 1700000002,
                                           1700000003%float)]) flat
     = (Died ticker_mismatch, flat,
        [Printed (ClientInitialized "AAPL")]
        ++ [Printed (ProcessError ticker_mismatch); SocketClose; ContextTerm;
            Printed SocketAndContextClosed]).
Proof.
  cbv zeta. split; [reflexivity |].
  apply (ticker_mismatch_is_fatal py_round2 "AAPL" 13145
           (<["AAPL" := tick "MSFT" 100.0 1700000000]> ∅)
           (tick "MSFT" 100.0 1700000000) (JStr "MSFT"));
    reflexivity.
Defined.

Lemma missing_symbol_is_fatal_witness :
  snapshot_of "MSFT" 100.0 1700000000 !! "AAPL" = None
  /\ individual_trade_execution py_round2 "AAPL" 13145
       ([] ++ (snapshot_of "MSFT" 100.0 1700000000, 1700000001%float) :: []) flat
     = (Died (KeyError "AAPL"), flat,
        [Printed (ClientInitialized "AAPL")]
        ++ [Printed (ProcessError (KeyError "AAPL")); SocketClose; ContextTerm;
            Printed SocketAndContextClosed])
  /\ DataModule.print_realtime_price ["AAPL"; "MSFT"]
       (snapshot_of "MSFT" 100.0 1700000000)
     = DataModule.print_realtime_price ["MSFT"]
         (snapshot_of "MSFT" 100.0 1700000000).
Proof.
  split; [reflexivity |].
  apply (missing_symbol_is_fatal py_round2 "AAPL" 13145
           (snapshot_of "MSFT" 100.0 1700000000) 1700000001 [] [] flat flat
           [Printed (ClientInitialized "AAPL")] ["MSFT"]);
    reflexivity.
Defined.

Lemma anomaly_cancels_then_submits_witness :
  let req := mkLimitOrderRequest "AAPL" 99.1 1 BUY DAY in
  get_orders "AAPL" two_open = (inr [bid; ask], two_open)
  /\ exists r b' tr asked ok b3,
       execute_trade py_round2 "AAPL" (Some 99.1%float) (Some 101.1%float) 1
         two_open
       = (r, b', tr)
       /\ cancel_run (map order_id [bid; ask]) two_open = (asked, ok, b3)
       /\ cancelled_ids tr = asked
       /\ (if ok
           then asked = map order_id [bid; ask]
                /\ submitted tr = [req]
                /\ b' = snd (submit_order req b3)
           else submitted tr = [] /\ r = Value None /\ b' = b3).
Proof.
  cbv zeta. split; [reflexivity |].
  apply (anomaly_cancels_then_submits py_round2 "AAPL"
           (Some 99.1%float) (Some 101.1%float) 1 two_open two_open two_open
           None [GetOpenPosition "AAPL"] [bid; ask]
           (mkLimitOrderRequest "AAPL" 99.1 1 BUY DAY));
    [reflexivity | reflexivity | cbn; lia | reflexivity].
Defined.

(** C1 as stated rules out a submission in a cycle that finds more than
    one open order.  With two open orders whose cancels the broker
    accepts, the cycle cancels both and then submits a new order. *)
Lemma anomaly_cycle_submits :
  exists st' b' tr,
    get_orders "AAPL" two_open = (inr [bid; ask], two_open)
    /\ cycle py_round2 "AAPL" (snapshot_of "AAPL" 100.0 1700000000) 1700000001
         initial_state two_open
       = (NextIteration, st', b', tr)
    /\ cancelled_ids tr = ["o1"; "o2"]
    /\ submitted tr = [mkLimitOrderRequest "AAPL" 99.0 1 BUY DAY].
Proof. eexists _, _, _. repeat split; reflexivity. Qed.

(** C2 fails on the code.  On the first cycle, with no position and no
    open order, a refused submission is reported, [execute_trade] then
    raises on its unassigned [new_order], the loop reports that too, and
    line 153 reads the unassigned [order]: the process ends. *)
Theorem first_cycle_submit_failure_is_fatal :
  individual_trade_execution py_round2 "AAPL" 13145
    [(snapshot_of "AAPL" 100.0 1700000000, 1700000001%float);
     (snapshot_of "AAPL" 100.5 1700000001, 1700000002%float)]
    submit_refused
  = (Died (UnboundLocalError "order"), submit_refused,
     [Printed (ClientInitialized "AAPL");
      GetOpenPosition "AAPL";
      GetOrders "AAPL";
      SubmitOrder (mkLimitOrderRequest "AAPL" 99.0 1 BUY DAY);
      Printed (ErrorSubmitting (inl (sim_error "insufficient buying power")));
      Printed (ErrorExecuting "AAPL" (UnboundLocalError "new_order"));
      Printed (ProcessError (UnboundLocalError "order"));
      SocketClose; ContextTerm; Printed SocketAndContextClosed]).
Proof. reflexivity. Qed.

(** C5 fails on the code.  A stale tick makes the intent [(None, None, 1)],
    for which no order request is built; with exactly one open order the
    comparison of line 102 reads the unassigned [order_req] and raises, so
    the open order is not cancelled. *)
Theorem stale_intent_leaves_order_open :
  let st := mkLoopState (Some 99.0%float) (Some 101.0%float) (Some 1)
                        (Some (Some bid)) in
  execute_trade py_round2 "AAPL" None None 1 one_open
  = (Raised (UnboundLocalError "order_req"), one_open,
     [GetOpenPosition "AAPL"; GetOrders "AAPL"])
  /\ cycle py_round2 "AAPL" (snapshot_of "AAPL" 100.0 1700000000) 1700000010
       st one_open
     = (NextIteration, mkLoopState None None (Some 1) (Some (Some bid)), one_open,
        [Printed (WarnStale "AAPL");
         GetOpenPosition "AAPL";
         GetOrders "AAPL";
         Printed (ErrorExecuting "AAPL" (UnboundLocalError "order_req"));
         Printed (OrderUpdated bid)])
  /\ sim_open one_open = [bid].
Proof. cbv zeta. repeat split. Qed.

End TradingSpec.

(* ===================================================================== *)
(** * Further properties of tradingModule.py *)
(* ===================================================================== *)

Module TradingFacts.
Import Py Trading.

Section ExecuteTrade.
Context {B : Type} `{Broker B}.
Variable round2 : float -> float.

(** The last three statements of [execute_trade]. *)
Lemma submit_tail (order_req : option LimitOrderRequest) (b : B) :
  exists c b' tr,
    ((let* new_order := try_submit order_req in
      let* o := read_local "new_order" new_order in
      return_ (Some o))%body : Body B (option Order) (option Order)) b
    = (c, b', tr)
    /\ cancelled_ids tr = []
    /\ submitted tr = match order_req with Some req => [req] | None => [] end.
Proof.
  unfold try_submit. destruct order_req as [req |]; TradingSpec.body_step.
  - destruct (submit_order req b) as [[e | new_order] b1]; cbn;
      eexists _, _, _; repeat split.
  - eexists _, _, _; repeat split.
Qed.

Lemma make_order_req_inv ticker position buy_price sell_price buy_quantity req :
  make_order_req ticker position buy_price sell_price buy_quantity = Some req ->
  req_symbol req = ticker
  /\ req_time_in_force req = DAY
  /\ ((position = None
       /\ req_side req = BUY
       /\ buy_price = Some (req_limit_price req)
       /\ req_qty req = float_of_int buy_quantity)
      \/ (exists p, position = Some p
          /\ req_side req = SELL
          /\ sell_price = Some (req_limit_price req)
          /\ req_qty req = pos_qty p)).
Proof.
  unfold make_order_req.
  destruct position as [p |], buy_price as [bp |], sell_price as [sp |];
    intros [= <-]; cbn; repeat split; eauto 10.
Qed.

(** Whatever the broker answers, a call submits nothing or exactly the
    order request built from the position it was told about. *)
Lemma submitted_is_built ticker buy_price sell_price buy_quantity
    (b b' : B) r tr :
  execute_trade round2 ticker buy_price sell_price buy_quantity b = (r, b', tr) ->
  submitted tr = []
  \/ exists position req,
       make_order_req ticker position buy_price sell_price buy_quantity = Some req
       /\ submitted tr = [req].
Proof.
  unfold execute_trade, run_function, execute_trade_body.
  unfold bind at 1.
  destruct (fetch_position ticker b) as [[c b1] tr1] eqn:Hpos.
  destruct (TradingSpec.fetch_position_trace _ _ _ _ _ Hpos) as [_ Hs1].
  destruct c as [position | ret_val | e];
    [| intros [= <- <- <-]; left; exact Hs1
     | intros [= <- <- <-]; left; exact Hs1].
  set (order_req := make_order_req ticker position buy_price sell_price buy_quantity).
  assert (Hbuilt : forall req, order_req = Some req ->
            make_order_req ticker position buy_price sell_price buy_quantity
            = Some req) by (intros req Hreq; exact Hreq).
  clearbody order_req.
  unfold bind at 1. unfold fetch_orders. unfold bind at 1, call at 1.
  destruct (get_orders ticker b1) as [[e | orders] b2].
  { TradingSpec.body_step. intros [= <- <- <-]. left.
    rewrite TradingSpec.submitted_app, Hs1. reflexivity. }
  unfold ret at 1.
  destruct orders as [| o1 [| o2 rest]].
  - unfold bind at 1. unfold ret at 1.
    destruct (submit_tail order_req b2) as (c & b3 & tr3 & -> & _ & Hs3).
    cbn. destruct c; intros [= <- <- <-];
      rewrite TradingSpec.submitted_app, Hs1; cbn; rewrite Hs3;
      (destruct order_req as [req |]; [right; eauto | left; reflexivity]).
  - unfold reconcile_single, try_submit.
    destruct order_req as [req |].
    + TradingSpec.body_step. destruct (differs round2 req o1); cbn.
      * destruct (cancel_order_by_id (order_id o1) b2) as [[e | []] b3]; cbn.
        -- intros [= <- <- <-]. left.
           rewrite !TradingSpec.submitted_app, Hs1. reflexivity.
        -- destruct (submit_order req b3) as [[e | new_order] b4]; cbn;
             intros [= <- <- <-]; right; exists position, req;
             (split; [auto |]);
             rewrite !TradingSpec.submitted_app, Hs1; reflexivity.
      * intros [= <- <- <-]. left.
        rewrite !TradingSpec.submitted_app, Hs1. reflexivity.
    + TradingSpec.body_step. intros [= <- <- <-]. left.
      rewrite !TradingSpec.submitted_app, Hs1. reflexivity.
  - unfold bind at 1. unfold bind at 1, print at 1, emit at 1.
    destruct (cancel_run (map order_id (o1 :: o2 :: rest)) b2)
      as [[asked ok] b3] eqn:Hrun.
    destruct (TradingSpec.cancel_bizarre_run ticker _ _ _ _ _ Hrun)
      as (trc & -> & _ & Hsc & _).
    destruct ok.
    + destruct (submit_tail order_req b3) as (c & b4 & tr4 & -> & _ & Hs4).
      cbn. destruct c; intros [= <- <- <-];
        rewrite TradingSpec.submitted_app, Hs1; cbn;
        rewrite ?TradingSpec.submitted_app, Hsc, Hs4; cbn;
        (destruct order_req as [req |]; [right; eauto | left; reflexivity]).
    + intros [= <- <- <-]. left.
      rewrite !TradingSpec.submitted_app, Hs1. cbn.
      rewrite Hsc. reflexivity.
Qed.

(** X1.  When the position query raises an exception whose message does
    not mention a missing position, the call warns and returns [None]: the
    position query is the only broker call of the cycle. *)
Theorem position_error_aborts
    (ticker : string) (buy_price sell_price : option float) (buy_quantity : Z)
    (b b1 : B) (e : BrokerExn) (m : string) :
  get_open_position ticker b = (inl e, b1) ->
  exn_message e = Some m ->
  str_in "position does not exist" m = false ->
  execute_trade round2 ticker buy_price sell_price buy_quantity b
  = (Value None, b1,
     [GetOpenPosition ticker; Printed (WarnPositionError ticker e)]).
Proof.
  intros Hpos Hmsg Hother.
  unfold execute_trade, run_function, execute_trade_body, fetch_position.
  TradingSpec.body_step. rewrite Hpos. cbn. rewrite Hmsg, Hother. reflexivity.
Qed.

(** X2.  When the position query raises an exception that has no
    [message] attribute, the [except] clause itself raises
    [AttributeError]: the call raises after its single broker call,
    without a warning. *)
Theorem position_error_without_message_raises
    (ticker : string) (buy_price sell_price : option float) (buy_quantity : Z)
    (b b1 : B) (e : BrokerExn) :
  get_open_position ticker b = (inl e, b1) ->
  exn_message e = None ->
  execute_trade round2 ticker buy_price sell_price buy_quantity b
  = (Raised (AttributeError "message"), b1, [GetOpenPosition ticker]).
Proof.
  intros Hpos Hmsg.
  unfold execute_trade, run_function, execute_trade_body, fetch_position.
  TradingSpec.body_step. rewrite Hpos. cbn. rewrite Hmsg. reflexivity.
Qed.

(** X3.  When the open-orders query raises, the call warns and returns
    [None] without cancelling or submitting anything. *)
Theorem orders_error_aborts
    (ticker : string) (buy_price sell_price : option float) (buy_quantity : Z)
    (b b1 b2 : B) (position : option Position) (tr1 : list Event)
    (e : BrokerExn) :
  fetch_position ticker b = (Normal position, b1, tr1) ->
  get_orders ticker b1 = (inl e, b2) ->
  execute_trade round2 ticker buy_price sell_price buy_quantity b
  = (Value None, b2,
     tr1 ++ [GetOrders ticker; Printed (WarnOrdersError ticker e)]).
Proof.
  intros Hpos Horders.
  unfold execute_trade, run_function, execute_trade_body.
  unfold bind at 1. rewrite Hpos.
  unfold bind at 1. unfold fetch_orders. unfold bind at 1, call at 1.
  rewrite Horders. TradingSpec.body_step. reflexivity.
Qed.

(** X4.  With no open order and an order request built, the request is
    submitted without any cancel, and the order the broker answers with is
    returned. *)
Theorem no_open_orders_submits
    (ticker : string) (buy_price sell_price : option float) (buy_quantity : Z)
    (b b1 b2 b3 : B) (position : option Position) (tr1 : list Event)
    (req : LimitOrderRequest) (new_order : Order) :
  fetch_position ticker b = (Normal position, b1, tr1) ->
  get_orders ticker b1 = (inr [], b2) ->
  make_order_req ticker position buy_price sell_price buy_quantity = Some req ->
  submit_order req b2 = (inr new_order, b3) ->
  execute_trade round2 ticker buy_price sell_price buy_quantity b
  = (Value (Some new_order), b3, tr1 ++ [GetOrders ticker; SubmitOrder req]).
Proof.
  intros Hpos Horders Hreq Hsubmit.
  unfold execute_trade, run_function, execute_trade_body.
  unfold bind at 1. rewrite Hpos, Hreq.
  unfold bind at 1. unfold fetch_orders. unfold bind at 1, call at 1.
  rewrite Horders. unfold try_submit. TradingSpec.body_step.
  rewrite Hsubmit. reflexivity.
Qed.

(** X5.  Whatever the broker answers, one call submits at most one order:
    for the engine's ticker, good for the day, and either a BUY at the buy
    price for the buy quantity or a SELL at the sell price, never both. *)
Theorem submits_at_most_one_request
    (ticker : string) (buy_price sell_price : option float) (buy_quantity : Z)
    (b b' : B) (r : Result (option Order)) (tr : list Event) :
  execute_trade round2 ticker buy_price sell_price buy_quantity b = (r, b', tr) ->
  submitted tr = []
  \/ exists req,
       submitted tr = [req]
       /\ req_symbol req = ticker
       /\ req_time_in_force req = DAY
       /\ ((req_side req = BUY
            /\ buy_price = Some (req_limit_price req)
            /\ req_qty req = float_of_int buy_quantity)
           \/ (req_side req = SELL
               /\ sell_price = Some (req_limit_price req))).
Proof.
  intros Hrun.
  destruct (submitted_is_built _ _ _ _ _ _ _ _ Hrun)
    as [Hnone | (position & req & Hreq & Hone)]; [left; exact Hnone |].
  right. exists req.
  destruct (make_order_req_inv _ _ _ _ _ _ Hreq)
    as (Hsym & Htif & [(_ & Hside & Hprice & Hqty) | (p & _ & Hside & Hprice & _)]);
    repeat split; auto.
Qed.

End ExecuteTrade.

Section Loop.
Context {B : Type} `{Broker B}.
Variable round2 : float -> float.

(** What the intent computation answers when it answers. *)
Lemma compute_intent_value ticker msg now i stale :
  compute_intent ticker msg now = Value (i, stale) ->
  buy_quantity i = 1
  /\ if stale then buy_price i = None /\ sell_price i = None
     else exists price, buy_price i = Some (price - 1.0)%float
                        /\ sell_price i = Some (price + 1.0)%float.
Proof.
  unfold compute_intent, read_tick, is_stale, getitem, rbind,
    sub_float, add_float, float_sub.
  repeat case_match; try discriminate; intros Heq; simplify_eq;
    cbn; split; eauto.
Qed.


(** The events of a statement come before those of what follows it. *)
Lemma bind_trace_prefix {R A A'} (c : Body B R A) (k : A -> Body B R A')
    (b b1 : B) x tr1 :
  c b = (x, b1, tr1) ->
  exists r b2 tr2, bind c k b = (r, b2, tr1 ++ tr2).
Proof.
  intros Hc. unfold bind. rewrite Hc. destruct x as [a | v | e].
  - destruct (k a b1) as [[r b2] tr2]. eauto.
  - exists (Return v), b1, []. rewrite app_nil_r. reflexivity.
  - exists (Raise e), b1, []. rewrite app_nil_r. reflexivity.
Qed.

(** Every call starts with the position query. *)
Lemma execute_trade_starts_with_position ticker buy_price sell_price
    buy_quantity (b b' : B) r tr :
  execute_trade round2 ticker buy_price sell_price buy_quantity b = (r, b', tr) ->
  exists rest, tr = GetOpenPosition ticker :: rest.
Proof.
  unfold execute_trade, run_function, execute_trade_body.
  assert (Hhead : exists c b1 rest,
            fetch_position ticker b = (c, b1, GetOpenPosition ticker :: rest)).
  { unfold fetch_position. TradingSpec.body_step.
    destruct (get_open_position ticker b) as [[e | position] b1]; cbn;
      [destruct (exn_message e) as [m |]; cbn;
         [destruct (str_in "position does not exist" m); cbn |] |];
      eauto. }
  destruct Hhead as (c & b1 & rest & Hhead).
  edestruct (bind_trace_prefix (A':=option Order) (fetch_position ticker))
    as (c2 & b2 & tr2 & Heq);
    [exact Hhead |].
  rewrite Heq. destruct c2; intros [= <- <- <-]; cbn; eauto.
Qed.

(** X6.  A cycle on a stale tick never submits an order, whatever the
    broker holds and answers. *)
Theorem stale_cycle_never_submits
    (ticker : string) (msg : Snapshot) (now : float) (st st' : LoopState)
    (b b' : B) (i : Intent) (flow : Flow) (tr : list Event) :
  compute_intent ticker msg now = Value (i, true) ->
  cycle round2 ticker msg now st b = (flow, st', b', tr) ->
  submitted tr = [].
Proof.
  intros Hi. destruct (compute_intent_value _ _ _ _ _ Hi) as (_ & Hb & Hs).
  unfold cycle. rewrite Hi, Hb, Hs.
  destruct (same_as_last i st); [intros [= <- <- <- <-]; reflexivity |].
  destruct (execute_trade round2 ticker None None (buy_quantity i) b)
    as [[r b1] tr1] eqn:Hrun.
  assert (Hnone : submitted tr1 = []).
  { destruct (submitted_is_built _ _ _ _ _ _ _ _ _ Hrun)
      as [Hnone | (position & req & Hreq & _)]; [exact Hnone |].
    destruct position; discriminate. }
  destruct r as [[o |] | e]; [| | destruct (order st) as [[o |] |]];
    intros [= <- <- <- <-]; cbn;
    rewrite !TradingSpec.submitted_app, Hnone; reflexivity.
Qed.

(** X7.  A tick for the engine's ticker that is not older than 5 seconds
    gives the intent [(price - 1.0, price + 1.0, 1)]. *)
Theorem fresh_tick_intent
    (ticker : string) (msg : Snapshot) (entry : Entry)
    (price last_update now : float) :
  msg !! ticker = Some entry ->
  entry !! "symbol" = Some (JStr ticker) ->
  entry !! "price" = Some (JNum price) ->
  entry !! "time" = Some (JNum last_update) ->
  PrimFloat.ltb 5 (now - last_update) = false ->
  compute_intent ticker msg now
  = Value (mkIntent (Some (price - 1.0)%float) (Some (price + 1.0)%float) 1,
           false).
Proof.
  intros Hmsg Hsym Hprice Htime Hfresh.
  unfold compute_intent, read_tick, getitem.
  rewrite Hmsg. cbn [rbind]. rewrite Hsym. cbn [rbind ne_str].
  rewrite String.eqb_refl. cbn [negb]. rewrite Hprice, Htime.
  cbn [rbind sub_float add_float is_stale float_sub]. rewrite Hfresh.
  reflexivity.
Qed.

(** X8.  A tick for the engine's ticker whose price is not a number
    raises [TypeError], which ends the running process like any other
    exception of the loop: reported, socket and context closed, the broker
    not called. *)
Theorem non_numeric_price_is_fatal
    (ticker : string) (port : Z) (msg : Snapshot) (entry : Entry)
    (price last_update : JVal) (now : float)
    (earlier later : list (Snapshot * float)) (b b1 : B) (tr1 : list Event) :
  msg !! ticker = Some entry ->
  entry !! "symbol" = Some (JStr ticker) ->
  entry !! "price" = Some price ->
  (forall f, price <> JNum f) ->
  entry !! "time" = Some last_update ->
  individual_trade_execution round2 ticker port earlier b = (Waiting, b1, tr1) ->
  individual_trade_execution round2 ticker port (earlier ++ (msg, now) :: later) b
  = (Died TypeError, b1, tr1 ++ cleanup TypeError).
Proof.
  intros Hmsg Hsym Hprice Hnan Htime. apply TradingSpec.fatal_message.
  unfold compute_intent, read_tick, getitem.
  rewrite Hmsg. cbn [rbind]. rewrite Hsym. cbn [rbind ne_str].
  rewrite String.eqb_refl. cbn [negb]. rewrite Hprice, Htime. cbn [rbind].
  destruct price as [f | s |]; [destruct (Hnan f eq_refl) | reflexivity ..].
Qed.


(** X9.  Once a call of [execute_trade] has returned, so that [order] is
    assigned, the loop outlives every broker failure: on messages whose
    intent can be computed it keeps waiting for the next one. *)
Theorem running_once_order_assigned
    (ticker : string) (inputs : list (Snapshot * float)) (st : LoopState)
    (b : B) (v : option Order) :
  order st = Some v ->
  Forall (fun input => exists i stale,
            compute_intent ticker input.1 input.2 = Value (i, stale)) inputs ->
  exists st' b' tr,
    main_loop round2 ticker inputs st b = (Waiting, st', b', tr)
    /\ is_Some (order st').
Proof.
  revert st b v.
  induction inputs as [| [msg now] rest IH]; intros st b v Hbound Hok.
  - eexists _, _, _. split; [reflexivity |]. rewrite Hbound. eauto.
  - apply Forall_cons in Hok as [(i & stale & Hi) Hrest]. cbn in Hi.
    destruct (TradingSpec.cycle_survives_when_order_bound round2 ticker msg now
                st b i stale v Hi Hbound) as (st1 & b1 & tr1 & Hcycle & [v1 Hv1]).
    destruct (IH st1 b1 v1 Hv1 Hrest) as (st2 & b2 & tr2 & Hloop & Hsome).
    cbn [main_loop]. rewrite Hcycle, Hloop. eauto 10.
Qed.



(** X11.  The check of line 144 cannot succeed before an intent has been
    stored: on the first message whose intent can be computed the engine
    always asks the broker for the position. *)
Theorem first_message_queries_position
    (ticker : string) (msg : Snapshot) (now : float) (b : B)
    (i : Intent) (stale : bool) :
  compute_intent ticker msg now = Value (i, stale) ->
  exists flow st' b' tr calls,
    cycle round2 ticker msg now initial_state b = (flow, st', b', tr)
    /\ List.filter is_broker_call tr = GetOpenPosition ticker :: calls.
Proof.
  intros Hi. unfold cycle. rewrite Hi.
  replace (same_as_last i initial_state) with false
    by (unfold same_as_last; cbn; rewrite andb_false_r; reflexivity).
  destruct (execute_trade round2 ticker (buy_price i) (sell_price i)
              (buy_quantity i) b) as [[r b1] tr1] eqn:Hrun.
  destruct (execute_trade_starts_with_position _ _ _ _ _ _ _ _ Hrun)
    as (rest & ->).
  destruct r as [[o |] | e]; destruct stale; cbn;
    eexists _, _, _, _, _; split; reflexivity.
Qed.

End Loop.

(** ** The properties above on concrete input *)

Import Scenarios Fixtures.

Lemma position_error_aborts_witness :
  str_in "position does not exist" "bad gateway" = false
  /\ execute_trade py_round2 "AAPL" (Some 99.0%float) (Some 101.0%float) 1
       gateway_down
     = (Value None, gateway_down,
        [GetOpenPosition "AAPL";
         Printed (WarnPositionError "AAPL" (mkBrokerExn (Some "bad gateway")))]).
Proof.
  split; [reflexivity |].
  apply (position_error_aborts py_round2 "AAPL" (Some 99.0%float)
           (Some 101.0%float) 1 gateway_down gateway_down
           (mkBrokerExn (Some "bad gateway")) "bad gateway");
    reflexivity.
Defined.

Lemma position_error_without_message_raises_witness :
  exn_message (mkBrokerExn None) = None
  /\ execute_trade py_round2 "AAPL" (Some 99.0%float) (Some 101.0%float) 1
       bare_error
     = (Raised (AttributeError "message"), bare_error, [GetOpenPosition "AAPL"]).
Proof.
  split; [reflexivity |].
  apply (position_error_without_message_raises py_round2 "AAPL"
           (Some 99.0%float) (Some 101.0%float) 1 bare_error bare_error
           (mkBrokerExn None));
    reflexivity.
Defined.

Lemma orders_error_aborts_witness :
  get_orders "AAPL" orders_down = (inl (sim_error "service unavailable"), orders_down)
  /\ execute_trade py_round2 "AAPL" (Some 99.0%float) (Some 101.0%float) 1
       orders_down
     = (Value None, orders_down,
        [GetOpenPosition "AAPL"]
        ++ [GetOrders "AAPL";
            Printed (WarnOrdersError "AAPL" (sim_error "service unavailable"))]).
Proof.
  split; [reflexivity |].
  apply (orders_error_aborts py_round2 "AAPL" (Some 99.0%float)
           (Some 101.0%float) 1 orders_down orders_down orders_down None
           [GetOpenPosition "AAPL"] (sim_error "service unavailable"));
    reflexivity.
Defined.

Lemma no_open_orders_submits_witness :
  let req := mkLimitOrderRequest "AAPL" 101.0 3 SELL DAY in
  make_order_req "AAPL" (Some (mkPosition "AAPL" 3)) (Some 99.0%float)
    (Some 101.0%float) 1 = Some req
  /\ exists b3,
       execute_trade py_round2 "AAPL" (Some 99.0%float) (Some 101.0%float) 1
         holding
       = (Value (Some (sim_accept req)), b3,
          [GetOpenPosition "AAPL"] ++ [GetOrders "AAPL"; SubmitOrder req]).
Proof.
  cbv zeta. split; [reflexivity |]. eexists.
  apply (no_open_orders_submits py_round2 "AAPL" (Some 99.0%float)
           (Some 101.0%float) 1 holding holding holding _
           (Some (mkPosition "AAPL" 3)) [GetOpenPosition "AAPL"]
           (mkLimitOrderRequest "AAPL" 101.0 3 SELL DAY));
    reflexivity.
Defined.

Lemma submits_at_most_one_request_witness :
  exists tr,
    (execute_trade py_round2 "AAPL" (Some 99.0%float) (Some 101.0%float) 1
       two_open).2 = tr
    /\ (submitted tr = []
        \/ exists req,
             submitted tr = [req]
             /\ req_symbol req = "AAPL"
             /\ req_time_in_force req = DAY
             /\ ((req_side req = BUY
                  /\ Some 99.0%float = Some (req_limit_price req)
                  /\ req_qty req = float_of_int 1)
                 \/ (req_side req = SELL
                     /\ Some 101.0%float = Some (req_limit_price req)))).
Proof.
  eexists. split; [reflexivity |].
  eapply (submits_at_most_one_request py_round2 "AAPL" (Some 99.0%float)
            (Some 101.0%float) 1 two_open).
  reflexivity.
Defined.

Lemma stale_cycle_never_submits_witness :
  exists flow st' b' tr,
    cycle py_round2 "AAPL" (snapshot_of "AAPL" 100.0 1700000000) 1700000010
      after_first_order already_placed
    = (flow, st', b', tr)
    /\ submitted tr = [].
Proof.
  eexists _, _, _, _. split; [reflexivity |].
  eapply (stale_cycle_never_submits py_round2 "AAPL"
            (snapshot_of "AAPL" 100.0 1700000000) 1700000010
            after_first_order _ already_placed);
    reflexivity.
Defined.

Lemma fresh_tick_intent_witness :
  PrimFloat.ltb 5 (1700000005 - 1700000000) = false
  /\ compute_intent "AAPL" (snapshot_of "AAPL" 100.0 1700000000) 1700000005
     = Value (mkIntent (Some (100.0 - 1.0)%float) (Some (100.0 + 1.0)%float) 1,
              false).
Proof.
  split; [reflexivity |].
  apply (fresh_tick_intent "AAPL" (snapshot_of "AAPL" 100.0 1700000000)
           (tick "AAPL" 100.0 1700000000) 100.0 1700000000 1700000005);
    reflexivity.
Defined.

Lemma non_numeric_price_is_fatal_witness :
  let entry : Entry :=
    <["symbol" := JStr "AAPL"]>
      (<["price" := JStr "100.0"]> (<["time" := JNum 1700000000]> ∅)) in
  let msg : Snapshot := <["AAPL" := entry]> ∅ in
  individual_trade_execution py_round2 "AAPL" 13145
    ([] ++ (msg, 1700000001%float) :: []) flat
  = (Died TypeError, flat,
     [Printed (ClientInitialized "AAPL")] ++ cleanup TypeError).
Proof.
  cbv zeta.
  apply (non_numeric_price_is_fatal py_round2 "AAPL" 13145 _
           (<["symbol" := JStr "AAPL"]>
              (<["price" := JStr "100.0"]> (<["time" := JNum 1700000000]> ∅)))
           (JStr "100.0") (JNum 1700000000));
    try reflexivity.
  intros f. discriminate.
Defined.

Lemma running_once_order_assigned_witness :
  exists st' b' tr,
    main_loop py_round2 "AAPL"
      [(snapshot_of "AAPL" 100.5 1700000001, 1700000002%float)]
      after_first_order gateway_down
    = (Waiting, st', b', tr)
    /\ is_Some (order st').
Proof.
  apply (running_once_order_assigned py_round2 "AAPL"
           [(snapshot_of "AAPL" 100.5 1700000001, 1700000002%float)]
           after_first_order gateway_down (Some resting) eq_refl).
  constructor; [| constructor].
  eexists _, _. reflexivity.
Defined.


Lemma first_message_queries_position_witness :
  exists flow st' b' tr calls,
    cycle py_round2 "AAPL" (snapshot_of "AAPL" 100.0 1700000000) 1700000001
      initial_state flat
    = (flow, st', b', tr)
    /\ List.filter is_broker_call tr = GetOpenPosition "AAPL" :: calls.
Proof.
  apply (first_message_queries_position py_round2 "AAPL"
           (snapshot_of "AAPL" 100.0 1700000000) 1700000001 flat
           (mkIntent (Some 99.0%float) (Some 101.0%float) 1) false).
  reflexivity.
Defined.

Lemma single_order_same_noop_witness :
  let req := mkLimitOrderRequest "AAPL" 99.0 1 BUY DAY in
  differs py_round2 req resting = false
  /\ exists tr,
       execute_trade py_round2 "AAPL" (Some 99.0%float) (Some 101.0%float) 1
         already_placed
       = (Value None, already_placed, tr)
       /\ cancelled_ids tr = [] /\ submitted tr = [].
Proof.
  cbv zeta. split; [reflexivity |].
  apply (TradingSpec.single_order_same_noop py_round2 "AAPL"
           (Some 99.0%float) (Some 101.0%float) 1
           already_placed already_placed already_placed None
           [GetOpenPosition "AAPL"] resting
           (mkLimitOrderRequest "AAPL" 99.0 1 BUY DAY));
    reflexivity.
Defined.

Lemma single_order_differs_cancel_witness :
  let req := mkLimitOrderRequest "AAPL" 99.0 1 BUY DAY in
  differs py_round2 req bid = true
  /\ exists r b' tr,
       execute_trade py_round2 "AAPL" (Some 99.0%float) (Some 101.0%float) 1
         cancel_refused
       = (r, b', tr)
       /\ cancelled_ids tr = ["o1"]
       /\ submitted tr = [] /\ r = Value None /\ b' = cancel_refused.
Proof.
  cbv zeta. split; [reflexivity |].
  destruct (TradingSpec.single_order_differs_cancel py_round2 "AAPL"
              (Some 99.0%float) (Some 101.0%float) 1
              cancel_refused cancel_refused cancel_refused None
              [GetOpenPosition "AAPL"] bid
              (mkLimitOrderRequest "AAPL" 99.0 1 BUY DAY))
    as (r & b' & tr & Hrun & Hcancel & Hrest);
    [reflexivity | reflexivity | reflexivity | reflexivity |].
  exists r, b', tr. split; [exact Hrun |]. split; [exact Hcancel |].
  exact Hrest.
Defined.

End TradingFacts.

(* ===================================================================== *)
(** * Further properties of dataModule.py *)
(* ===================================================================== *)

Module DataModuleFacts.
Import Py DataModule.

(** ** The publisher *)

Lemma publisher_loop_broadcast ticker clock : forall i,
  map (fun m => (m !! "symbol", m !! "time"))
      (broadcast (publisher_loop ticker clock i))
  = map (fun now => (Some (JStr ticker), Some (JNum now))) clock.
Proof.
  induction clock as [| now later IH]; intros i; [reflexivity |].
  cbn [publisher_loop broadcast map]. rewrite IH. reflexivity.
Qed.

(** X14.  A publisher broadcasts exactly one tick per iteration, in order,
    each carrying the publisher's own symbol and the clock reading of its
    iteration. *)
Theorem publisher_broadcasts_every_reading
    (ticker : string) (port : Z) (clock : list float) :
  map (fun m => (m !! "symbol", m !! "time"))
      (broadcast (realtime_price_publisher ticker port clock))
  = map (fun now => (Some (JStr ticker), Some (JNum now))) clock
  /\ length (broadcast (realtime_price_publisher ticker port clock))
     = length clock.
Proof.
  unfold realtime_price_publisher.
  pose proof (publisher_loop_broadcast ticker clock 0) as Hmap.
  split; [exact Hmap |].
  apply (f_equal length) in Hmap. rewrite !length_map in Hmap. exact Hmap.
Qed.

(** ** The aggregator *)

(** Assigning under a str key is an insertion into the mapping the
    consumers decode. *)
Lemma as_received_dict_set (d : PyDict) s e (snap : Snapshot) :
  as_received d = Some snap ->
  as_received (dict_set d (JStr s) e) = Some (<[s := e]> snap).
Proof.
  revert snap. induction d as [| [k v] d IH]; intros snap.
  - intros [= <-]. reflexivity.
  - cbn [as_received dict_set].
    destruct k as [f | s' |]; try discriminate.
    destruct (as_received d) as [snap' |] eqn:Hd; [| discriminate].
    intros [= <-]. cbn [key_eqb].
    destruct (String.eqb_spec s' s) as [-> | Hne].
    + cbn [as_received]. rewrite Hd. rewrite insert_insert_eq. reflexivity.
    + cbn [as_received]. rewrite (IH snap' eq_refl).
      rewrite insert_insert_ne by congruence. reflexivity.
Qed.

Lemma symbol_of_getitem (m : Entry) s :
  symbol_of m = Some s -> getitem m "symbol" = Value (JStr s).
Proof.
  unfold symbol_of, getitem.
  destruct (m !! "symbol") as [[f | s' |] |]; try discriminate.
  intros [= ->]. reflexivity.
Qed.

Lemma latest_for_cons ticker m received :
  latest_for ticker (m :: received)
  = match latest_for ticker received with
    | Some e => Some e
    | None => if symbol_is ticker m then Some m else None
    end.
Proof.
  unfold latest_for. cbn [List.filter].
  destruct (symbol_is ticker m); [apply last_cons |].
  destruct (last (List.filter (symbol_is ticker) received)); reflexivity.
Qed.

Lemma latest_for_symbol ticker received e :
  latest_for ticker received = Some e ->
  In e received /\ e !! "symbol" = Some (JStr ticker).
Proof.
  unfold latest_for. intros Hlast.
  apply last_Some_elem_of, list_elem_of_In, filter_In in Hlast as [Hin Hsym].
  split; [exact Hin |].
  unfold symbol_is, symbol_of in Hsym.
  destruct (e !! "symbol") as [[f | s |] |]; try discriminate.
  apply String.eqb_eq in Hsym as ->. reflexivity.
Qed.

(** The loop of [get_aggregated_prices] on messages whose symbols are
    strs: the mapping received downstream holds, for every symbol, the last
    message of the round that carries it. *)
Lemma aggregate_lookup consume_sockets : forall received acc (snap0 : Snapshot),
  length received = length consume_sockets ->
  Forall (fun m => is_Some (symbol_of m)) received ->
  as_received acc = Some snap0 ->
  exists latest_prices snap,
    aggregate consume_sockets received acc = Some (Value latest_prices)
    /\ as_received latest_prices = Some snap
    /\ forall ticker,
         snap !! ticker
         = match latest_for ticker received with
           | Some e => Some e
           | None => snap0 !! ticker
           end.
Proof.
  induction consume_sockets as [| socket sockets IH];
    intros [| m rest] acc snap0 Hlen Hsym Hacc; try discriminate.
  - exists acc, snap0. repeat split; trivial.
  - apply Forall_cons in Hsym as [[s Hs] Hrest].
    cbn [aggregate]. rewrite (symbol_of_getitem _ _ Hs).
    destruct (IH rest (dict_set acc (JStr s) m) (<[s := m]> snap0))
      as (d & snap & Hrun & Hd & Hlookup);
      [cbn in Hlen; lia | exact Hrest | apply as_received_dict_set, Hacc |].
    exists d, snap. repeat split; trivial.
    intros ticker. rewrite Hlookup, latest_for_cons.
    destruct (latest_for ticker rest); [reflexivity |].
    unfold symbol_is. rewrite Hs.
    destruct (String.eqb_spec s ticker) as [-> | Hne].
    + apply lookup_insert_eq.
    + apply lookup_insert_ne, Hne.
Qed.

(** X15.  When every consuming socket delivers a message whose symbol is a
    str, the aggregator builds a dict that the consumers receive as a
    mapping holding, for every symbol, the last message of the round that
    carries it; so every entry sits under its own symbol, and a symbol no
    message carries is absent. *)
Theorem aggregated_snapshot_holds_latest
    (consume_sockets : list Z) (received : list Entry) :
  length received = length consume_sockets ->
  Forall (fun m => is_Some (symbol_of m)) received ->
  exists latest_prices snap,
    get_aggregated_prices consume_sockets received = Some (Value latest_prices)
    /\ as_received latest_prices = Some snap
    /\ (forall ticker, snap !! ticker = latest_for ticker received)
    /\ (forall ticker e,
          snap !! ticker = Some e ->
          In e received /\ e !! "symbol" = Some (JStr ticker)).
Proof.
  intros Hlen Hsym.
  destruct (aggregate_lookup consume_sockets received [] ∅ Hlen Hsym eq_refl)
    as (d & snap & Hrun & Hd & Hlookup).
  assert (Hlatest : forall ticker, snap !! ticker = latest_for ticker received).
  { intros ticker. rewrite Hlookup.
    destruct (latest_for ticker received); [reflexivity | apply lookup_empty]. }
  exists d, snap. repeat split; trivial;
    rewrite Hlatest in H; apply latest_for_symbol in H; tauto.
Qed.

(** A message without a symbol makes the loop of [get_aggregated_prices]
    raise, whatever the sockets before it delivered. *)
Lemma aggregate_missing_symbol consume_sockets : forall good m rest acc,
  (length good < length consume_sockets)%nat ->
  Forall (fun m => is_Some (m !! "symbol")) good ->
  m !! "symbol" = None ->
  aggregate consume_sockets (good ++ m :: rest) acc
  = Some (Raised (KeyError "symbol")).
Proof.
  induction consume_sockets as [| socket sockets IH];
    intros good m rest acc Hlen Hgood Hm; [cbn in Hlen; lia |].
  destruct good as [| g good]; cbn [app aggregate].
  - unfold getitem. rewrite Hm. reflexivity.
  - apply Forall_cons in Hgood as [[k Hk] Hgood].
    unfold getitem at 1. rewrite Hk.
    apply IH; [cbn in Hlen; lia | exact Hgood | exact Hm].
Qed.

Lemma manager_loop_complete consume_sockets earlier later :
  Forall (fun received => exists latest_prices,
            get_aggregated_prices consume_sockets received
            = Some (Value latest_prices)) earlier ->
  exists sent,
    manager_loop consume_sockets earlier = (Running, sent)
    /\ manager_loop consume_sockets (earlier ++ later)
       = (let '(s, tr) := manager_loop consume_sockets later in (s, sent ++ tr)).
Proof.
  induction 1 as [| received earlier [d Hd] _ (sent & Hrun & Happ)].
  - exists []. split; [reflexivity |]. cbn.
    destruct (manager_loop consume_sockets later); reflexivity.
  - exists (ManagerSend d :: ManagerSleep :: sent).
    cbn [app manager_loop]. rewrite Hd, Hrun, Happ.
    split; [reflexivity |].
    destruct (manager_loop consume_sockets later); reflexivity.
Qed.

(** X16.  After any number of completed rounds, a message that lacks the
    [symbol] field makes the aggregator raise [KeyError]: nothing is sent
    for that round, the error is reported, every consuming socket, the
    publishing socket and the context are closed, and the process ends. *)
Theorem message_without_symbol_stops_manager
    (tickers : list string) (consume_ports : list Z) (port : Z)
    (earlier later : list (list Entry)) (good rest : list Entry) (m : Entry) :
  Forall (fun received => exists latest_prices,
            get_aggregated_prices consume_ports received
            = Some (Value latest_prices)) earlier ->
  (length good < length consume_ports)%nat ->
  Forall (fun m => is_Some (m !! "symbol")) good ->
  m !! "symbol" = None ->
  exists sent,
    realtime_prices_manager tickers consume_ports port earlier = (Running, sent)
    /\ realtime_prices_manager tickers consume_ports port
         (earlier ++ (good ++ m :: rest) :: later)
       = (Stopped (KeyError "symbol"),
          sent ++ [ManagerError (KeyError "symbol")]
               ++ map ManagerCloseConsumer consume_ports
               ++ [ManagerClosePublisher; ManagerContextTerm; ManagerClosed]).
Proof.
  intros Hearlier Hlen Hgood Hm.
  destruct (manager_loop_complete consume_ports earlier
              ((good ++ m :: rest) :: later) Hearlier) as (sent & Hrun & Happ).
  exists sent. unfold realtime_prices_manager. rewrite Hrun, Happ.
  split; [reflexivity |].
  cbn [manager_loop]. unfold get_aggregated_prices.
  rewrite (aggregate_missing_symbol _ _ _ _ _ Hlen Hgood Hm).
  rewrite app_nil_r. reflexivity.
Qed.

(** ** The display consumer *)

Lemma has_price_truthy (e : Entry) price :
  e !! "price" = Some price -> truthy e = true.
Proof.
  intros Hprice. unfold truthy.
  destruct (Nat.eqb_spec (size e) 0) as [Hzero | Hpos]; [| reflexivity].
  apply map_size_empty_iff in Hzero. subst e.
  rewrite lookup_empty in Hprice. discriminate.
Qed.

(** On a snapshot all of whose entries have a price and a time, the loop
    prints one line per tracked ticker that is present and raises
    nothing. *)
Lemma print_each_well_formed tickers (prices : Snapshot) :
  (forall ticker e, prices !! ticker = Some e ->
     is_Some (e !! "price") /\ is_Some (e !! "time")) ->
  print_each tickers prices
  = (omap (fun ticker => prices !! ticker ≫= line_of ticker) tickers, Value tt).
Proof.
  intros Hwf. induction tickers as [| ticker rest IH]; [reflexivity |].
  cbn [print_each]. rewrite IH.
  change (omap ?f (ticker :: rest))
    with (match f ticker with
          | Some y => y :: omap f rest
          | None => omap f rest
          end).
  cbn beta.
  destruct (prices !! ticker) as [e |] eqn:He; cbn [mbind option_bind];
    [| reflexivity].
  destruct (Hwf _ _ He) as [[price Hprice] [time Htime]].
  rewrite (has_price_truthy _ _ Hprice).
  unfold getitem, line_of. rewrite Hprice, Htime. reflexivity.
Qed.

(** X17.  On what the aggregator sends for a round of messages that each
    have a str symbol, a price and a time, the display prints, for every
    tracked ticker in order, the latest message of that ticker, skips the
    tickers no message carries, ends with the blank line and raises
    nothing. *)
Theorem display_prints_latest_of_present
    (tickers : list string) (consume_sockets : list Z) (received : list Entry) :
  length received = length consume_sockets ->
  Forall (fun m => is_Some (symbol_of m)
                   /\ is_Some (m !! "price") /\ is_Some (m !! "time")) received ->
  exists latest_prices snap,
    get_aggregated_prices consume_sockets received = Some (Value latest_prices)
    /\ as_received latest_prices = Some snap
    /\ print_realtime_price tickers snap
       = (DisplaySleep
            :: omap (fun ticker => latest_for ticker received ≫= line_of ticker)
                    tickers
            ++ [PrintBlank],
          Value tt).
Proof.
  intros Hlen Hwf.
  assert (Hsym : Forall (fun m => is_Some (symbol_of m)) received)
    by (eapply Forall_impl; [exact Hwf |]; cbn; tauto).
  destruct (aggregate_lookup consume_sockets received [] ∅ Hlen Hsym eq_refl)
    as (d & snap & Hrun & Hd & Hlookup).
  assert (Hlatest : forall ticker, snap !! ticker = latest_for ticker received).
  { intros ticker. rewrite Hlookup.
    destruct (latest_for ticker received); [reflexivity | apply lookup_empty]. }
  exists d, snap. repeat split; trivial.
  unfold print_realtime_price. rewrite print_each_well_formed.
  - f_equal. f_equal. f_equal. apply list_omap_ext.
    induction tickers as [| ticker rest IH]; constructor; [| exact IH].
    rewrite Hlatest. reflexivity.
  - intros ticker e He. rewrite Hlatest in He.
    apply latest_for_symbol in He as [Hin _].
    rewrite Forall_forall in Hwf. apply list_elem_of_In, Hwf in Hin. tauto.
Qed.

Lemma print_each_skips_absent before : forall ticker after (prices : Snapshot),
  Forall (fun t => prices !! t = None) before ->
  print_each (before ++ ticker :: after) prices
  = print_each (ticker :: after) prices.
Proof.
  induction before as [| t before IH]; intros ticker after prices Habs;
    [reflexivity |].
  apply Forall_cons in Habs as [Ht Habs].
  cbn [app]. rewrite (DataModuleSpec.print_each_absent _ _ _ Ht).
  apply IH, Habs.
Qed.

Lemma display_loop_complete tickers earlier later :
  Forall (fun prices => exists out,
            print_realtime_price tickers prices = (out, Value tt)) earlier ->
  exists shown,
    display_loop tickers earlier = (Running, shown)
    /\ display_loop tickers (earlier ++ later)
       = (let '(s, tr) := display_loop tickers later in (s, shown ++ tr)).
Proof.
  induction 1 as [| prices earlier [out Hout] _ (shown & Hrun & Happ)].
  - exists []. split; [reflexivity |]. cbn.
    destruct (display_loop tickers later); reflexivity.
  - exists (map Shown out ++ shown).
    cbn [app display_loop]. rewrite Hout, Hrun, Happ.
    split; [reflexivity |].
    destruct (display_loop tickers later) as [s tr].
    rewrite app_assoc. reflexivity.
Qed.

(** X18.  The display consumer skips a missing ticker but not a broken
    entry: when the first tracked ticker present in a snapshot has a
    non-empty entry without [price], the consumer raises [KeyError] before
    printing anything for that snapshot, reports it, closes its socket and
    context and ends. *)
Theorem entry_without_price_stops_display
    (before after : list string) (ticker : string) (port : Z)
    (earlier later : list Snapshot) (prices : Snapshot) (e : Entry) :
  Forall (fun prices => exists out,
            print_realtime_price (before ++ ticker :: after) prices
            = (out, Value tt)) earlier ->
  Forall (fun t => prices !! t = None) before ->
  prices !! ticker = Some e ->
  truthy e = true ->
  e !! "price" = None ->
  exists shown,
    realtime_price_display_consumer (before ++ ticker :: after) port earlier
    = (Running, shown)
    /\ realtime_price_display_consumer (before ++ ticker :: after) port
         (earlier ++ prices :: later)
       = (Stopped (KeyError "price"),
          shown ++ [Shown DisplaySleep; ConsumerError (KeyError "price");
                    ConsumerSocketClose; ConsumerContextTerm; ConsumerClosed]).
Proof.
  intros Hearlier Habs He Htruthy Hprice.
  destruct (display_loop_complete (before ++ ticker :: after) earlier
              (prices :: later) Hearlier) as (shown & Hrun & Happ).
  exists shown. unfold realtime_price_display_consumer. rewrite Hrun, Happ.
  split; [reflexivity |].
  cbn [display_loop]. unfold print_realtime_price.
  rewrite (print_each_skips_absent _ _ _ _ Habs).
  cbn [print_each]. rewrite He, Htruthy. unfold getitem. rewrite Hprice.
  cbn. rewrite <- app_assoc. reflexivity.
Qed.

(** ** The properties above on concrete input *)

Import Fixtures.

Lemma aggregated_snapshot_holds_latest_witness :
  Forall (fun m => is_Some (symbol_of m)) round1
  /\ exists latest_prices snap,
       get_aggregated_prices [13140; 13141] round1 = Some (Value latest_prices)
       /\ as_received latest_prices = Some snap
       /\ (forall ticker, snap !! ticker = latest_for ticker round1)
       /\ (forall ticker e,
             snap !! ticker = Some e ->
             In e round1 /\ e !! "symbol" = Some (JStr ticker)).
Proof.
  assert (Hsym : Forall (fun m => is_Some (symbol_of m)) round1)
    by (repeat constructor; eexists; reflexivity).
  split; [exact Hsym |].
  exact (aggregated_snapshot_holds_latest [13140; 13141] round1 eq_refl Hsym).
Defined.

Lemma message_without_symbol_stops_manager_witness :
  exists sent,
    realtime_prices_manager ["AAPL"; "MSFT"] [13140; 13141] 13142 [round1]
    = (Running, sent)
    /\ realtime_prices_manager ["AAPL"; "MSFT"] [13140; 13141] 13142
         ([round1]
          ++ ([DataModule.get_realtime_price "AAPL" 1700000001 2]
              ++ no_symbol :: []) :: [])
       = (Stopped (KeyError "symbol"),
          sent ++ [ManagerError (KeyError "symbol")]
               ++ map ManagerCloseConsumer [13140; 13141]
               ++ [ManagerClosePublisher; ManagerContextTerm; ManagerClosed]).
Proof.
  apply (message_without_symbol_stops_manager ["AAPL"; "MSFT"] [13140; 13141]
           13142 [round1] []
           [DataModule.get_realtime_price "AAPL" 1700000001 2] [] no_symbol).
  - repeat constructor. eexists. reflexivity.
  - cbn. lia.
  - repeat constructor. eexists. reflexivity.
  - reflexivity.
Defined.

Lemma display_prints_latest_of_present_witness :
  exists latest_prices snap,
    get_aggregated_prices [13140; 13141] round1 = Some (Value latest_prices)
    /\ as_received latest_prices = Some snap
    /\ print_realtime_price ["AAPL"; "GOOGL"; "MSFT"] snap
       = (DisplaySleep
            :: omap (fun ticker => latest_for ticker round1 ≫= line_of ticker)
                    ["AAPL"; "GOOGL"; "MSFT"]
            ++ [PrintBlank],
          Value tt).
Proof.
  apply (display_prints_latest_of_present ["AAPL"; "GOOGL"; "MSFT"]
           [13140; 13141] round1 eq_refl).
  repeat constructor; eexists; reflexivity.
Defined.

Lemma entry_without_price_stops_display_witness :
  let prices : Snapshot := <["AAPL" := no_price]> ∅ in
  truthy no_price = true
  /\ exists shown,
       realtime_price_display_consumer (["GOOGL"] ++ "AAPL" :: ["MSFT"]) 13145 []
       = (Running, shown)
       /\ realtime_price_display_consumer (["GOOGL"] ++ "AAPL" :: ["MSFT"]) 13145
            ([] ++ prices :: [])
          = (Stopped (KeyError "price"),
             shown ++ [Shown DisplaySleep; ConsumerError (KeyError "price");
                       ConsumerSocketClose; ConsumerContextTerm; ConsumerClosed]).
Proof.
  cbv zeta. split; [reflexivity |].
  apply (entry_without_price_stops_display ["GOOGL"] ["MSFT"] "AAPL" 13145
           [] [] (<["AAPL" := no_price]> ∅) no_price).
  - constructor.
  - repeat constructor.
  - reflexivity.
  - reflexivity.
  - reflexivity.
Defined.

End DataModuleFacts.

(* ===================================================================== *)
(** * From the publishers to the broker *)
(* ===================================================================== *)

Module PipelineFacts.
Import Py DataModule Trading.

Section Pipeline.
Context {B : Type} `{Broker B}.
Variable round2 : float -> float.

(** X19.  On what the aggregator sends for a round of messages with str
    symbols, a trader never raises the ticker-mismatch error, whatever its
    ticker; and when no message of the round carries its ticker, its cycle
    raises [KeyError] for that ticker. *)
Theorem aggregated_snapshot_never_mismatches
    (consume_sockets : list Z) (received : list Entry) :
  length received = length consume_sockets ->
  Forall (fun m => is_Some (symbol_of m)) received ->
  exists latest_prices snap,
    get_aggregated_prices consume_sockets received = Some (Value latest_prices)
    /\ as_received latest_prices = Some snap
    /\ forall ticker now,
         compute_intent ticker snap now <> Raised ticker_mismatch
         /\ (latest_for ticker received = None ->
             compute_intent ticker snap now = Raised (KeyError ticker)).
Proof.
  intros Hlen Hsym.
  destruct (DataModuleFacts.aggregate_lookup consume_sockets received [] ∅
              Hlen Hsym eq_refl) as (d & snap & Hrun & Hd & Hlookup).
  exists d, snap. repeat split; trivial.
  - unfold compute_intent, read_tick, getitem. rewrite Hlookup.
    destruct (latest_for ticker received) as [e |] eqn:He.
    + apply DataModuleFacts.latest_for_symbol in He as [_ He].
      cbn [rbind]. rewrite He. cbn [rbind ne_str].
      rewrite String.eqb_refl. cbn [negb].
      unfold rbind, sub_float, add_float, is_stale, float_sub, rbind,
        ticker_mismatch.
      intros Heq. repeat case_match; simplify_eq.
    + rewrite lookup_empty. intros Heq. discriminate Heq.
  - intros Hnone. unfold compute_intent, read_tick, getitem.
    rewrite Hlookup, Hnone, lookup_empty. reflexivity.
Qed.

(** X20.  From tick to order.  When the latest message of a round for the
    trader's ticker is the publisher's [i]-th tick, not older than 5
    seconds, the broker reports that no position exists and no order is
    open, and accepts the submission, then the trader's first cycle makes
    exactly three broker calls, the last one submitting a BUY limit order
    for one share at the tick's price minus 1.0, good for the day; it
    stores the intent and the order and goes on to the next message. *)
Theorem tick_to_buy_order
    (ticker : string) (consume_sockets : list Z) (received : list Entry)
    (last_update now : float) (i : Z) (b b1 b2 b3 : B)
    (e : BrokerExn) (m : string) (new_order : Order) :
  let price := (100.0 + truediv_int i 10)%float in
  let req := mkLimitOrderRequest ticker (price - 1.0) (float_of_int 1) BUY DAY in
  length received = length consume_sockets ->
  Forall (fun m => is_Some (symbol_of m)) received ->
  latest_for ticker received = Some (get_realtime_price ticker last_update i) ->
  PrimFloat.ltb 5 (now - last_update) = false ->
  get_open_position ticker b = (inl e, b1) ->
  exn_message e = Some m ->
  str_in "position does not exist" m = true ->
  get_orders ticker b1 = (inr [], b2) ->
  submit_order req b2 = (inr new_order, b3) ->
  exists latest_prices snap,
    get_aggregated_prices consume_sockets received = Some (Value latest_prices)
    /\ as_received latest_prices = Some snap
    /\ cycle round2 ticker snap now initial_state b
       = (NextIteration,
          mkLoopState (Some (price - 1.0)%float) (Some (price + 1.0)%float)
                      (Some 1) (Some (Some new_order)),
          b3,
          [GetOpenPosition ticker; GetOrders ticker; SubmitOrder req;
           Printed (OrderUpdated new_order)]).
Proof.
  intros price req Hlen Hsym Hlatest Hfresh Hpos Hmsg Hnone Horders Hsubmit.
  subst req. change (float_of_int 1) with 1%float in *.
  set (req := mkLimitOrderRequest ticker (price - 1.0) 1 BUY DAY) in *.
  destruct (DataModuleFacts.aggregate_lookup consume_sockets received [] ∅
              Hlen Hsym eq_refl) as (d & snap & Hrun & Hd & Hlookup).
  exists d, snap. repeat split; trivial.
  specialize (Hlookup ticker). rewrite Hlatest in Hlookup.
  assert (Hintent :
    compute_intent ticker snap now
    = Value (mkIntent (Some (price - 1.0)%float) (Some (price + 1.0)%float) 1,
             false)).
  { unfold compute_intent, read_tick, getitem. rewrite Hlookup. cbn [rbind].
    change (get_realtime_price ticker last_update i !! "symbol")
      with (Some (JStr ticker)).
    cbn [rbind ne_str]. rewrite String.eqb_refl. cbn [negb].
    change (get_realtime_price ticker last_update i !! "price")
      with (Some (JNum price)).
    change (get_realtime_price ticker last_update i !! "time")
      with (Some (JNum last_update)).
    cbn [rbind sub_float add_float is_stale float_sub]. rewrite Hfresh.
    reflexivity. }
  clearbody price. clear Hlookup.
  unfold cycle. rewrite Hintent.
  replace (same_as_last _ initial_state) with false by reflexivity.
  cbn [buy_price sell_price buy_quantity].
  assert (Hrun' :
    execute_trade round2 ticker (Some (price - 1.0)%float)
      (Some (price + 1.0)%float) 1 b
    = (Value (Some new_order), b3,
       [GetOpenPosition ticker; GetOrders ticker; SubmitOrder req])).
  { unfold execute_trade, run_function, execute_trade_body, fetch_position,
      fetch_orders, try_submit, make_order_req.
    TradingSpec.body_step. rewrite Hpos. cbn. rewrite Hmsg, Hnone. cbn.
    rewrite Horders. cbn.
    change (float_of_int 1) with 1%float in *. fold req.
    rewrite Hsubmit. reflexivity. }
  rewrite Hrun'. reflexivity.
Qed.

End Pipeline.

Import Scenarios Fixtures.

Lemma aggregated_snapshot_never_mismatches_witness :
  exists latest_prices snap,
    get_aggregated_prices [13140; 13141] round1 = Some (Value latest_prices)
    /\ as_received latest_prices = Some snap
    /\ forall ticker now,
         compute_intent ticker snap now <> Raised ticker_mismatch
         /\ (latest_for ticker round1 = None ->
             compute_intent ticker snap now = Raised (KeyError ticker)).
Proof.
  apply (aggregated_snapshot_never_mismatches [13140; 13141] round1 eq_refl).
  repeat constructor; eexists; reflexivity.
Defined.

Lemma tick_to_buy_order_witness :
  let req := mkLimitOrderRequest "AAPL" (100.1 - 1.0) 1 BUY DAY in
  latest_for "AAPL" round1 = Some (get_realtime_price "AAPL" 1700000000 1)
  /\ exists latest_prices snap,
       get_aggregated_prices [13140; 13141] round1 = Some (Value latest_prices)
       /\ as_received latest_prices = Some snap
       /\ exists b3,
            cycle py_round2 "AAPL" snap 1700000001 initial_state flat
            = (NextIteration,
               mkLoopState (Some (100.1 - 1.0)%float) (Some (100.1 + 1.0)%float)
                           (Some 1) (Some (Some (sim_accept req))),
               b3,
               [GetOpenPosition "AAPL"; GetOrders "AAPL"; SubmitOrder req;
                Printed (OrderUpdated (sim_accept req))]).
Proof.
  cbv zeta. split; [reflexivity |].
  destruct (tick_to_buy_order py_round2 "AAPL" [13140; 13141] round1
              1700000000 1700000001 1 flat flat flat
              (mkSim None [sim_accept (mkLimitOrderRequest "AAPL" (100.1 - 1.0) 1
                                         BUY DAY)] false [] false)
              (sim_error "position does not exist") "position does not exist"
              (sim_accept (mkLimitOrderRequest "AAPL" (100.1 - 1.0) 1 BUY DAY)))
    as (d & snap & Hagg & Hd & Hcycle);
    [reflexivity
    | repeat constructor; eexists; reflexivity
    | reflexivity | reflexivity | reflexivity | reflexivity | reflexivity
    | reflexivity | reflexivity |].
  exists d, snap. repeat split; trivial. eexists. exact Hcycle.
Defined.

End PipelineFacts.

(* ===================================================================== *)
(** * Further properties of main.py *)
(* ===================================================================== *)

Module OrchestratorFacts.
Import Py Orchestrator.

Local Open Scope result_scope.

Lemma register_publishers_spec tickers : forall cpd,
  next_free_port cpd + Z.of_nat (length tickers) <= max_port cpd + 1 ->
  register_publishers tickers cpd
  = Value (ports_from (length tickers) (next_free_port cpd),
           mkCPD (next_free_port cpd + Z.of_nat (length tickers)) (max_port cpd)
                 (child_processes cpd
                  ++ publishers_from tickers (next_free_port cpd))).
Proof.
  induction tickers as [| ticker rest IH]; intros cpd Hfit.
  - cbn. rewrite Z.add_0_r, app_nil_r. destruct cpd; reflexivity.
  - cbn [length] in Hfit. cbn [register_publishers].
    rewrite OrchestratorSpec.register_with_port_ok by lia. cbn [rbind].
    rewrite IH by (cbn; lia). cbn [rbind next_free_port max_port child_processes].
    cbn [length ports_from publishers_from app].
    rewrite <- app_assoc. cbn [app].
    do 3 f_equal. lia.
Qed.

Lemma register_traders_spec tickers prices_manager_port : forall cpd,
  register_traders tickers prices_manager_port cpd
  = Value (mkCPD (next_free_port cpd) (max_port cpd)
             (child_processes cpd
              ++ map (fun ticker =>
                        mkProcess run_individual_trade_execution
                          [ATicker ticker; APort prices_manager_port]) tickers)).
Proof.
  induction tickers as [| ticker rest IH]; intros cpd.
  - cbn. rewrite app_nil_r. destruct cpd; reflexivity.
  - cbn [register_traders register_process_with_port rbind]. rewrite IH.
    cbn. rewrite <- app_assoc. reflexivity.
Qed.

(** X21.  When the range holds one port per ticker and one more, the
    script registers and starts, in this order: one publisher per ticker on
    consecutive ports from the initial one, the aggregator reading exactly
    those ports and publishing on the next port, the display consumer, and
    one trader per ticker, the consumers all reading the aggregator's
    port. *)
Theorem main_wires_the_pipeline
    (tickers : list string) (initial_port max_port : Z) :
  initial_port + Z.of_nat (length tickers) <= max_port ->
  main_with tickers initial_port max_port
  = (Value tt, map Start (expected_processes tickers initial_port)).
Proof.
  intros Hfit. unfold main_with, setup, new_ChildrenProcessesData.
  destruct (Z.ltb_spec max_port initial_port); [lia |]. cbn [rbind].
  rewrite register_publishers_spec by (cbn; lia).
  cbn [rbind next_free_port Orchestrator.max_port child_processes].
  rewrite OrchestratorSpec.register_with_port_ok by (cbn; lia).
  cbn [rbind register_process_with_port next_free_port Orchestrator.max_port
       child_processes].
  rewrite register_traders_spec.
  cbn [child_processes]. unfold expected_processes.
  cbn [app]. rewrite <- !app_assoc. reflexivity.
Qed.

Lemma main_wires_the_pipeline_witness :
  main_with ["AAPL"; "MSFT"] 13140 13142
  = (Value tt, map Start (expected_processes ["AAPL"; "MSFT"] 13140)).
Proof. apply main_wires_the_pipeline. cbn. lia. Defined.

(** X22.  Over any run of successful registrations the ports handed out
    are consecutive, starting at the allocator's first free port, one per
    port-needing registration and none for the others; and every
    registration adds its process to the registry, in call order. *)
Theorem ports_are_contiguous
    (reqs : list (Target * list Arg * bool)) (cpd : ChildrenProcessesData)
    (assigned : list (option Z)) (cpd' : ChildrenProcessesData) :
  register_all reqs cpd = Value (assigned, cpd') ->
  ports assigned
  = seqZ (next_free_port cpd) (Z.of_nat (length (ports assigned)))
  /\ next_free_port cpd'
     = next_free_port cpd + Z.of_nat (length (ports assigned))
  /\ length (ports assigned) = length (List.filter (fun r => r.2) reqs)
  /\ map proc_target (child_processes cpd')
     = map proc_target (child_processes cpd) ++ map (fun r => r.1.1) reqs.
Proof.
  revert cpd assigned cpd'.
  induction reqs as [| [[target args] need_port] rest IH];
    intros cpd assigned cpd'.
  - intros [= <- <-]. cbn. rewrite Z.add_0_r, app_nil_r. repeat split.
  - cbn [register_all].
    destruct (register_process_with_port (Some target) (Some args) need_port
                (Some cpd)) as [[[process new_port] cpd1] | e] eqn:Hreg;
      [| discriminate].
    cbn [rbind].
    destruct (register_all rest cpd1) as [[assigned1 cpd2] | e] eqn:Hrest;
      [| discriminate].
    cbn [rbind]. intros [= <- <-].
    destruct (IH _ _ _ Hrest) as (Hports & Hnext & Hcount & Hprocs).
    assert (Htarget : proc_target process = target).
    { unfold register_process_with_port in Hreg.
      destruct need_port; [destruct (max_port cpd <? next_free_port cpd) |];
        simplify_eq; reflexivity. }
    apply OrchestratorSpec.register_step in Hreg as (_ & Hchild & Hport).
    rewrite Hchild, map_app in Hprocs. cbn [map] in Hprocs.
    rewrite Htarget, <- app_assoc in Hprocs. cbn [app] in Hprocs.
    destruct need_port.
    + destruct Hport as (-> & _ & Hnext1). rewrite Hnext1 in Hports, Hnext.
      cbn [ports length List.filter snd map fst]. cbn.
      repeat split; [| lia | lia | exact Hprocs].
      rewrite seqZ_cons by lia. f_equal.
      rewrite Hports at 1. f_equal; lia.
    + destruct Hport as (-> & Hnext1). rewrite Hnext1 in Hports, Hnext.
      cbn [ports List.filter snd map fst]. cbn.
      repeat split; trivial.
Qed.

Lemma ports_are_contiguous_witness :
  let reqs :=
    [(run_realtime_price_publisher, [ATicker "AAPL"], true);
     (run_realtime_price_display_consumer, [ATickers ["AAPL"]], false);
     (run_realtime_prices_manager, [ATickers ["AAPL"]], true)] in
  exists assigned cpd',
    register_all reqs (mkCPD 13140 13399 []) = Value (assigned, cpd')
    /\ ports assigned = [13140; 13141]
    /\ next_free_port cpd' = 13142.
Proof.
  cbv zeta. eexists _, _. split; [reflexivity |].
  edestruct (ports_are_contiguous
               [(run_realtime_price_publisher, [ATicker "AAPL"], true);
                (run_realtime_price_display_consumer, [ATickers ["AAPL"]], false);
                (run_realtime_prices_manager, [ATickers ["AAPL"]], true)]
               (mkCPD 13140 13399 []))
    as (Hports & Hnext & _); [reflexivity |].
  split; [exact Hports | exact Hnext].
Defined.

End OrchestratorFacts.
